(** * pg_timeout: the idle-session monitor of [pg_timeout.c]

    A shallow embedding of the background worker [pg_timeout_main] and of
    the two SQL statements it sends to [pg_stat_activity], followed by the
    properties of the monitor loop.

    The worker talks to PostgreSQL through calls ([WaitLatch],
    [SPI_execute], [elog], ...).  Each call the worker makes is recorded as
    an [event]; what PostgreSQL answers in one loop iteration (signals,
    postmaster death, the configuration file, the results of the two
    statements) is one [wake] record, and a run is driven by a list of
    them. *)

From Stdlib Require Import ZArith List String Ascii Bool Lia DecimalString.
From Stdlib Require DecimalPos DecimalZ.
Import ListNotations.

Local Open Scope string_scope.
Local Open Scope list_scope.
Local Open Scope Z_scope.

(** ** Constants of PostgreSQL used by the worker *)

(** [SPI_OK_SELECT] of PostgreSQL's executor/spi.h. *)
Definition SPI_OK_SELECT : Z := 5.

(** [INT_MAX] of a 32-bit C [int], the upper bound of both settings. *)
Definition INT_MAX : Z := 2147483647.

(** ** Formatting *)

(** [%d] of a C [int]: the decimal numeral, with a leading minus sign for a
    negative number. *)
Definition fmt_d (n : Z) : string := NilZero.string_of_int (Z.to_int n).

(** [appendStringInfo(&buf, fmt, n)] into a fresh buffer, for a format
    whose only conversions are [%d]. *)
Fixpoint appendStringInfo (fmt : string) (n : Z) : string :=
  match fmt with
  | EmptyString => EmptyString
  | String c rest =>
      match rest with
      | EmptyString => String c EmptyString
      | String d rest' =>
          if (Ascii.eqb c "%" && Ascii.eqb d "d")%bool
          then (fmt_d n ++ appendStringInfo rest' n)%string
          else String c (appendStringInfo rest n)
      end
  end.

(** ** The two statements (pg_timeout.c, lines 121-138) *)

Definition select_format : string :=
  ("SELECT pid, usename, datname, application_name, client_hostname "
  ++ "FROM pg_stat_activity "
  ++ "WHERE pid <> pg_backend_pid() "
  ++ "AND state = 'idle' "
  ++ "AND state_change < current_timestamp - INTERVAL '%d' SECOND")%string.

Definition kill_format : string :=
  ("SELECT pg_terminate_backend(pid) "
  ++ "FROM pg_stat_activity "
  ++ "WHERE pid <> pg_backend_pid() "
  ++ "AND state = 'idle' "
  ++ "AND state_change < current_timestamp - INTERVAL '%d' SECOND")%string.

(** The contents of [buf_select] and [buf_kill] for a value of
    [pg_timeout_idle_session_timeout]. *)
Definition build_select (timeout : Z) : string :=
  appendStringInfo select_format timeout.

Definition build_kill (timeout : Z) : string :=
  appendStringInfo kill_format timeout.

(** ** Process state *)

(** The file-level variables of pg_timeout.c: the two flags set by the
    signal handlers and the two settings. *)
Record globals : Type := mkGlobals {
  got_sighup : bool;
  got_sigterm : bool;
  pg_timeout_idle_session_timeout : Z;
  pg_timeout_naptime : Z
}.

Definition set_got_sighup (b : bool) (g : globals) : globals :=
  mkGlobals b (got_sigterm g)
            (pg_timeout_idle_session_timeout g) (pg_timeout_naptime g).

Definition set_got_sigterm (b : bool) (g : globals) : globals :=
  mkGlobals (got_sighup g) b
            (pg_timeout_idle_session_timeout g) (pg_timeout_naptime g).

Definition set_settings (timeout naptime : Z) (g : globals) : globals :=
  mkGlobals (got_sighup g) (got_sigterm g) timeout naptime.

Inductive signal : Type := SIGHUP | SIGTERM.

(** The handlers only set a flag (and the latch, which the [wake] list
    stands for). *)
Definition pg_timeout_sigterm (g : globals) : globals := set_got_sigterm true g.
Definition pg_timeout_sighup (g : globals) : globals := set_got_sighup true g.

Definition handle (g : globals) (s : signal) : globals :=
  match s with
  | SIGHUP => pg_timeout_sighup g
  | SIGTERM => pg_timeout_sigterm g
  end.

Definition deliver_signals (sigs : list signal) (g : globals) : globals :=
  fold_left handle sigs g.

(** ** What the worker sees and does *)

(** One row of the result of the select statement: [SPI_getbinval] of
    column 1 ([None] when [isnull]) and [SPI_getvalue] of columns 2-5
    ([None] for a NULL pointer). *)
Record tuple : Type := mkTuple {
  t_pid : option Z;
  t_usename : option string;
  t_datname : option string;
  t_application_name : option string;
  t_client_hostname : option string
}.

(** The two settings as the configuration file gives them at a reload. *)
Record conf : Type := mkConf {
  conf_naptime : Z;
  conf_idle_session_timeout : Z
}.

(** The environment of one loop iteration. *)
Record wake : Type := mkWake {
  (** signals handled while the worker is blocked in [WaitLatch] *)
  signals_in_wait : list signal;
  (** [rc & WL_POSTMASTER_DEATH] *)
  postmaster_death : bool;
  (** the configuration file as [ProcessConfigFile] would read it *)
  conf_file : conf;
  (** [SPI_execute] of the first statement: return code and rows *)
  select_result : string -> Z * list tuple;
  (** [SPI_execute] of the second statement: return code *)
  kill_result : string -> Z;
  (** signals handled after the [got_sighup] test and before the next
      evaluation of the loop condition *)
  signals_in_body : list signal
}.

Inductive elevel : Type := LOG | WARNING | FATAL.

(** An argument of [elog]: an [int], or a [char *] that may be NULL. *)
Inductive arg : Type :=
| ArgInt (n : Z)
| ArgStr (s : option string).

Inductive BackendState : Type := STATE_RUNNING | STATE_IDLE.

(** The calls the worker makes, in order. *)
Inductive event : Type :=
| BackgroundWorkerInitializeConnection (dbname username : option string)
| elog (lvl : elevel) (fmt : string) (args : list arg)
| WaitLatch (timeout_ms : Z)
| ProcessConfigFile
| StartTransactionCommand
| pgstat_report_activity (st : BackendState) (query : option string)
| SPI_execute (query : string)
| CommitTransactionCommand
| proc_exit (code : Z).

(** ** A monad for the worker: globals, trace, and early exit *)

Inductive res (A : Type) : Type :=
| Ret (a : A) (g : globals)   (** control goes on *)
| Exit (code : Z)             (** [proc_exit(code)] *)
| Abort.                      (** [elog(FATAL, ...)] *)

Arguments Ret {A} a g.
Arguments Exit {A} code.
Arguments Abort {A}.

Definition M (A : Type) : Type := globals -> list event * res A.

Definition ret {A} (a : A) : M A := fun g => ([], Ret a g).

Definition bind {A B} (m : M A) (k : A -> M B) : M B :=
  fun g =>
    match m g with
    | (tr, Ret a g') => let (tr', r) := k a g' in (tr ++ tr', r)
    | (tr, Exit c) => (tr, Exit c)
    | (tr, Abort) => (tr, Abort)
    end.

Notation "x <- m ;; k" := (bind m (fun x => k))
  (at level 61, m at next level, right associativity).
Notation "m ;; k" := (bind m (fun _ => k))
  (at level 61, right associativity).

Definition gets {A} (f : globals -> A) : M A := fun g => ([], Ret (f g) g).
Definition modify (f : globals -> globals) : M unit := fun g => ([], Ret tt (f g)).
Definition call (e : event) : M unit := fun g => ([e], Ret tt g).
Definition when (b : bool) (m : M unit) : M unit := if b then m else ret tt.

(** [proc_exit] does not return. *)
Definition do_proc_exit (code : Z) : M unit :=
  fun _ => ([proc_exit code], Exit code).

(** [elog]: the line is written; at level [FATAL] the process is aborted. *)
Definition do_elog (lvl : elevel) (fmt : string) (args : list arg) : M unit :=
  fun g =>
    ([elog lvl fmt args],
     match lvl with
     | FATAL => Abort
     | _ => Ret tt g
     end).

Definition trace {A} (r : list event * res A) : list event := fst r.
Definition outcome {A} (r : list event * res A) : res A := snd r.

(** ** The worker *)

(** [worker.bgw_name], set by [_PG_init]. *)
Definition bgw_name : string := "pg_timeout_worker".

Definition LOG_MESSAGE : string :=
  "%s: idle session PID=%d user=%s database=%s application=%s hostname=%s".

Definition null_value : option string := Some "NULL".

Definition is_NULL (p : option string) : bool :=
  match p with
  | None => true
  | Some _ => false
  end.

(** [DefineCustomIntVariable(..., 1, INT_MAX, PGC_SIGHUP, ...)]: a reload
    assigns a value of the file that is within the bounds and keeps the
    current value otherwise. *)
Definition guc_assign (cur new : Z) : Z :=
  if ((1 <=? new) && (new <=? INT_MAX))%bool then new else cur.

Definition do_ProcessConfigFile (c : conf) : M unit :=
  call ProcessConfigFile ;;
  modify (fun g =>
    set_settings
      (guc_assign (pg_timeout_idle_session_timeout g) (conf_idle_session_timeout c))
      (guc_assign (pg_timeout_naptime g) (conf_naptime c))
      g).

(** The body of the [for] loop over the rows (lines 216-254). *)
Definition row_body (t : tuple) : M unit :=
  match t_pid t with
  | Some pid_val =>
      let usename_val := t_usename t in
      let datname_val := t_datname t in
      let application_name_val := t_application_name t in
      let client_hostname_val := t_client_hostname t in
      let usename_val :=
        if is_NULL usename_val then null_value else usename_val in
      let datname_val :=
        if is_NULL datname_val then null_value else datname_val in
      let client_hostname_val :=
        if is_NULL application_name_val then null_value else client_hostname_val in
      let client_hostname_val :=
        if is_NULL client_hostname_val then null_value else client_hostname_val in
      do_elog LOG LOG_MESSAGE
        [ArgStr (Some bgw_name); ArgInt pid_val; ArgStr usename_val;
         ArgStr datname_val; ArgStr application_name_val;
         ArgStr client_hostname_val]
  | None =>
      do_elog WARNING "%s: pid is NULL" [ArgStr (Some bgw_name)]
  end.

(** [for (i = 0; i < nr; i++)] over [SPI_tuptable->vals]. *)
Fixpoint for_rows (rows : list tuple) : M unit :=
  match rows with
  | [] => ret tt
  | t :: rest => row_body t ;; for_rows rest
  end.

(** One iteration of the [while] loop (lines 144-277).

    [ResetLatch], [SetCurrentStatementStartTimestamp], [SPI_connect],
    [PushActiveSnapshot], [SPI_finish], [PopActiveSnapshot] and
    [pgstat_report_stat] neither read nor write anything of the model and
    leave no event.  [CHECK_FOR_INTERRUPTS] has nothing to process: the
    worker replaces the SIGTERM handler by its own, which only sets
    [got_sigterm].  [nr] is [SPI_processed], the number of rows of the
    result.  The timeout of [WaitLatch] is the product
    [pg_timeout_naptime * 1000] in the integers, which is the value of the
    C expression wherever [long] holds it ([wrap_long] below). *)
Definition loop_body (buf_select buf_kill : string) (w : wake) : M unit :=
  naptime <- gets pg_timeout_naptime ;;
  call (WaitLatch (naptime * 1000)) ;;
  modify (deliver_signals (signals_in_wait w)) ;;
  when (postmaster_death w) (do_proc_exit 1) ;;
  sighup <- gets got_sighup ;;
  when sighup
    (modify (set_got_sighup false) ;;
     do_ProcessConfigFile (conf_file w)) ;;
  call StartTransactionCommand ;;
  call (pgstat_report_activity STATE_RUNNING (Some buf_select)) ;;
  call (SPI_execute buf_select) ;;
  let ret_ := fst (select_result w buf_select) in
  when (negb (ret_ =? SPI_OK_SELECT))
    (do_elog FATAL "cannot select from pg_stat_activity: error code %d"
       [ArgInt ret_]) ;;
  let rows := snd (select_result w buf_select) in
  let nr := Z.of_nat (List.length rows) in
  for_rows rows ;;
  when (0 <? nr)
    (call (SPI_execute buf_kill) ;;
     let ret_ := kill_result w buf_kill in
     when (negb (ret_ =? SPI_OK_SELECT))
       (do_elog FATAL "cannot select pg_terminate_backend: error code %d"
          [ArgInt ret_]) ;;
     timeout <- gets pg_timeout_idle_session_timeout ;;
     do_elog LOG "%s: idle session(s) since %d seconds terminated"
       [ArgStr (Some bgw_name); ArgInt timeout]) ;;
  call CommitTransactionCommand ;;
  call (pgstat_report_activity STATE_IDLE None) ;;
  modify (deliver_signals (signals_in_body w)).

(** [while (!got_sigterm) { ... } proc_exit(1);] (lines 143-279).  When
    the list of environments ends the worker is left blocked in
    [WaitLatch]: the result is then [Ret]. *)
Fixpoint main_loop (buf_select buf_kill : string) (env : list wake) : M unit :=
  sigterm <- gets got_sigterm ;;
  if sigterm then do_proc_exit 1
  else
    match env with
    | [] => ret tt
    | w :: env' =>
        loop_body buf_select buf_kill w ;;
        main_loop buf_select buf_kill env'
    end.

(** [pg_timeout_main] (lines 87-280).  [early] are the signals handled
    between [BackgroundWorkerUnblockSignals] and the first evaluation of
    the loop condition. *)
Definition pg_timeout_main (early : list signal) (env : list wake) : M unit :=
  modify (deliver_signals early) ;;
  call (BackgroundWorkerInitializeConnection (Some "postgres") None) ;;
  do_elog LOG "%s initialized" [ArgStr (Some bgw_name)] ;;
  timeout <- gets pg_timeout_idle_session_timeout ;;
  let buf_select := build_select timeout in
  timeout <- gets pg_timeout_idle_session_timeout ;;
  let buf_kill := build_kill timeout in
  main_loop buf_select buf_kill env.

(** The globals once [_PG_init] has defined both settings with their
    defaults (60 and 10 seconds). *)
Definition boot_globals : globals := mkGlobals false false 60 10.

(** ** The WHERE clause of the two statements

    The text after [WHERE] is a conjunction of three comparisons.  They are
    given here as syntax, with the SQL text they stand for ([render]) and
    their meaning on a row of [pg_stat_activity] ([selected]); the lemmas
    [build_select_render] and [build_kill_render] below tie that syntax to
    the strings the worker builds. *)

(** A row of [pg_stat_activity], every column nullable; [state_change] is
    a timestamp in microseconds. *)
Record session : Type := mkSession {
  s_pid : option Z;
  s_usename : option string;
  s_datname : option string;
  s_application_name : option string;
  s_client_hostname : option string;
  s_state : option string;
  s_state_change : option Z
}.

(** The backend that evaluates the statement. *)
Record backend : Type := mkBackend {
  pg_backend_pid : Z;
  current_timestamp : Z
}.

Inductive cond : Type :=
| PidIsNotBackendPid                 (** [pid <> pg_backend_pid()] *)
| StateIs (lit : string)             (** [state = 'lit'] *)
| StateChangeBefore (secs : Z).      (** [state_change < current_timestamp - INTERVAL 'secs' SECOND] *)

Definition render_cond (c : cond) : string :=
  match c with
  | PidIsNotBackendPid => "pid <> pg_backend_pid()"
  | StateIs lit => ("state = '" ++ (lit ++ "'"))%string
  | StateChangeBefore secs =>
      ("state_change < current_timestamp - INTERVAL '"
       ++ (fmt_d secs ++ "' SECOND"))%string
  end.

Fixpoint render_where (cs : list cond) : string :=
  match cs with
  | [] => ""
  | [c] => render_cond c
  | c :: cs' => (render_cond c ++ (" AND " ++ render_where cs'))%string
  end.

Record statement : Type := mkStatement {
  st_select : string;
  st_from : string;
  st_where : list cond
}.

Definition render (st : statement) : string :=
  ("SELECT " ++ (st_select st ++ (" FROM " ++ (st_from st
    ++ (" WHERE " ++ render_where (st_where st))))))%string.

(** SQL comparison: NULL on either side gives unknown ([None]). *)
Definition holds (b : backend) (c : cond) (s : session) : option bool :=
  match c with
  | PidIsNotBackendPid =>
      option_map (fun p => negb (p =? pg_backend_pid b)) (s_pid s)
  | StateIs lit =>
      option_map (fun st => String.eqb st lit) (s_state s)
  | StateChangeBefore secs =>
      option_map (fun ts => ts <? current_timestamp b - secs * 1000000)
                 (s_state_change s)
  end.

(** A row passes [WHERE c1 AND ... AND cn] when every [ci] is true. *)
Definition selected (b : backend) (cs : list cond) (s : session) : bool :=
  forallb (fun c => match holds b c s with
                    | Some true => true
                    | _ => false
                    end) cs.

Definition idle_window (timeout : Z) : list cond :=
  [PidIsNotBackendPid; StateIs "idle"; StateChangeBefore timeout].

Definition select_statement (timeout : Z) : statement :=
  mkStatement "pid, usename, datname, application_name, client_hostname"
              "pg_stat_activity" (idle_window timeout).

Definition kill_statement (timeout : Z) : statement :=
  mkStatement "pg_terminate_backend(pid)"
              "pg_stat_activity" (idle_window timeout).

(** ** Reading a statement back from its text

    The reader takes the text the worker hands to [SPI_execute] and gives
    the statement it is, for the fragment of SQL the worker uses:
    [SELECT list FROM table WHERE c1 AND ... AND cn] with the three kinds
    of comparison of [cond].  A text with any other condition, such as a
    filter on another column, is not read ([None]).  The number of
    seconds is read digit by digit from the text between the quotes. *)

(** [strip_prefix p s]: what follows [p] in [s], when [s] starts with [p]. *)
Fixpoint strip_prefix (p s : string) : option string :=
  match p with
  | EmptyString => Some s
  | String c p' =>
      match s with
      | EmptyString => None
      | String d s' => if Ascii.eqb c d then strip_prefix p' s' else None
      end
  end.

(** [split_at sep s]: the text before the first [sep] in [s], and the
    text after it. *)
Fixpoint split_at (sep s : string) : option (string * string) :=
  match strip_prefix sep s with
  | Some rest => Some (EmptyString, rest)
  | None =>
      match s with
      | EmptyString => None
      | String c s' =>
          match split_at sep s' with
          | Some (before, after) => Some (String c before, after)
          | None => None
          end
      end
  end.

(** [read_until stop s]: the text before the first character [stop], and
    the text after it. *)
Fixpoint read_until (stop : ascii) (s : string) : option (string * string) :=
  match s with
  | EmptyString => None
  | String c s' =>
      if Ascii.eqb c stop then Some (EmptyString, s')
      else match read_until stop s' with
           | Some (before, after) => Some (String c before, after)
           | None => None
           end
  end.

(** A decimal numeral, with an optional leading minus sign. *)
Definition read_number (s : string) : option Z :=
  option_map Z.of_int (NilZero.int_of_string s).

(** One comparison at the head of [s], and what follows it. *)
Definition read_cond (s : string) : option (cond * string) :=
  match strip_prefix "pid <> pg_backend_pid()" s with
  | Some rest => Some (PidIsNotBackendPid, rest)
  | None =>
  match strip_prefix "state = '" s with
  | Some rest =>
      match read_until "'" rest with
      | Some (lit, rest') => Some (StateIs lit, rest')
      | None => None
      end
  | None =>
  match strip_prefix "state_change < current_timestamp - INTERVAL '" s with
  | Some rest =>
      match read_until "'" rest with
      | Some (num, rest') =>
          match read_number num, strip_prefix " SECOND" rest' with
          | Some secs, Some rest'' => Some (StateChangeBefore secs, rest'')
          | _, _ => None
          end
      | None => None
      end
  | None => None
  end end end.

(** [c1 AND ... AND cn] up to the end of the text; [fuel] bounds the
    number of comparisons. *)
Fixpoint read_where (fuel : nat) (s : string) : option (list cond) :=
  match fuel with
  | O => None
  | S fuel' =>
      match read_cond s with
      | Some (c, EmptyString) => Some [c]
      | Some (c, rest) =>
          match strip_prefix " AND " rest with
          | Some rest' =>
              match read_where fuel' rest' with
              | Some cs => Some (c :: cs)
              | None => None
              end
          | None => None
          end
      | None => None
      end
  end.

(** Every comparison takes at least one character, so the length of the
    text is fuel enough. *)
Definition read_statement (q : string) : option statement :=
  match strip_prefix "SELECT " q with
  | Some rest =>
      match split_at " FROM " rest with
      | Some (sel, rest') =>
          match split_at " WHERE " rest' with
          | Some (from, wh) =>
              match read_where (String.length wh) wh with
              | Some cs => Some (mkStatement sel from cs)
              | None => None
              end
          | None => None
          end
      | None => None
      end
  | None => None
  end.

(** Whether the statement of text [q], evaluated by backend [b], returns
    the row of session [s]; [None] when the text is not read. *)
Definition selects (b : backend) (q : string) (s : session) : option bool :=
  option_map (fun st => selected b (st_where st) s) (read_statement q).


(** ** Reading a trace *)

Definition executed_queries (tr : list event) : list string :=
  flat_map (fun e => match e with
                     | SPI_execute q => [q]
                     | _ => []
                     end) tr.

Definition count (p : event -> bool) (tr : list event) : nat :=
  List.length (filter p tr).

Definition is_StartTransactionCommand (e : event) : bool :=
  match e with
  | StartTransactionCommand => true
  | _ => false
  end.

Definition is_WaitLatch (e : event) : bool :=
  match e with
  | WaitLatch _ => true
  | _ => false
  end.

(** A line of [elog(WARNING, ...)]. *)
Definition is_warning (e : event) : bool :=
  match e with
  | elog WARNING _ _ => true
  | _ => false
  end.

(** A line of [elog(LOG, LOG_MESSAGE, ...)]: one idle session. *)
Definition is_idle_session_line (e : event) : bool :=
  match e with
  | elog LOG fmt _ => String.eqb fmt LOG_MESSAGE
  | _ => false
  end.

(** The line written after the terminate statement. *)
Definition is_terminated_line (e : event) : bool :=
  match e with
  | elog LOG fmt _ =>
      String.eqb fmt "%s: idle session(s) since %d seconds terminated"
  | _ => false
  end.

Definition pid_is_null (t : tuple) : bool :=
  match t_pid t with
  | None => true
  | Some _ => false
  end.

(** The globals when the worker returns from [WaitLatch] and has passed
    the [got_sighup] test of the iteration. *)
Definition after_wait (w : wake) (g : globals) : globals :=
  deliver_signals (signals_in_wait w) g.

Definition after_reload (w : wake) (g : globals) : globals :=
  let g1 := after_wait w g in
  if got_sighup g1
  then set_settings
         (guc_assign (pg_timeout_idle_session_timeout g1)
                     (conf_idle_session_timeout (conf_file w)))
         (guc_assign (pg_timeout_naptime g1) (conf_naptime (conf_file w)))
         (set_got_sighup false g1)
  else g1.

(** The calls of an iteration up to and including the first statement. *)
Definition prologue (buf_select : string) (w : wake) (g : globals) : list event :=
  WaitLatch (pg_timeout_naptime g * 1000)
  :: (if got_sighup (after_wait w g) then [ProcessConfigFile] else [])
  ++ [StartTransactionCommand;
      pgstat_report_activity STATE_RUNNING (Some buf_select);
      SPI_execute buf_select].

Definition epilogue : list event :=
  [CommitTransactionCommand; pgstat_report_activity STATE_IDLE None].

(** The lines written for the rows of one result. *)
Definition row_lines (rows : list tuple) (g : globals) : list event :=
  flat_map (fun t => trace (row_body t g)) rows.

(** What an iteration may call: the two buffers are the only statements,
    and no second connection is made. *)
Definition allowed (bs bk : string) (e : event) : Prop :=
  match e with
  | SPI_execute q => q = bs \/ q = bk
  | BackgroundWorkerInitializeConnection _ _ => False
  | _ => True
  end.

(** The run the shutdown property of the specification asks for: no
    transaction, no statement, and a non-zero exit status. *)
Definition exits_without_cycle (r : list event * res unit) : Prop :=
  count is_StartTransactionCommand (trace r) = 0%nat /\
  executed_queries (trace r) = [] /\
  exists code, outcome r = Exit code /\ code <> 0.

(** ** Example environments *)

Definition alice : tuple :=
  mkTuple (Some 4242) (Some "alice") (Some "app") (Some "psql") None.

Definition no_application : tuple :=
  mkTuple (Some 4242) (Some "alice") (Some "app") None
          (Some "client.example.org").

Definition null_pid : tuple :=
  mkTuple None (Some "alice") (Some "app") (Some "psql") None.

Definition spi_ok (rows : list tuple) : string -> Z * list tuple :=
  fun _ => (SPI_OK_SELECT, rows).

(** An error code of [SPI_execute] (SPI_ERROR_ARGUMENT). *)
Definition spi_error : Z := -6.

(** A timer wake-up with [alice] idle and nothing else going on. *)
Definition wake_timer : wake :=
  mkWake [] false (mkConf 10 60) (spi_ok [alice])
         (fun _ => SPI_OK_SELECT) [].

(** The same, with SIGHUP arriving once the iteration is under way. *)
Definition wake_then_sighup : wake :=
  mkWake [] false (mkConf 10 60) (spi_ok [alice])
         (fun _ => SPI_OK_SELECT) [SIGHUP].

(** The next wake-up, the file now setting the timeout to 5 seconds. *)
Definition wake_reload_5 : wake :=
  mkWake [] false (mkConf 10 5) (spi_ok [alice])
         (fun _ => SPI_OK_SELECT) [].

(** SIGTERM while the worker is blocked in [WaitLatch]. *)
Definition wake_sigterm : wake :=
  mkWake [SIGTERM] false (mkConf 10 60) (spi_ok [alice])
         (fun _ => SPI_OK_SELECT) [].

Definition wake_select_error : wake :=
  mkWake [] false (mkConf 10 60) (fun _ => (spi_error, []))
         (fun _ => SPI_OK_SELECT) [].

Definition wake_kill_error : wake :=
  mkWake [] false (mkConf 10 60) (spi_ok [alice])
         (fun _ => spi_error) [].

Definition wake_null_pid : wake :=
  mkWake [] false (mkConf 10 60) (spi_ok [null_pid; alice; null_pid])
         (fun _ => SPI_OK_SELECT) [].

Definition wake_no_rows : wake :=
  mkWake [] false (mkConf 10 60) (spi_ok [])
         (fun _ => SPI_OK_SELECT) [].

(** Postmaster death reported by [WaitLatch], with a SIGHUP pending. *)
Definition wake_postmaster_death : wake :=
  mkWake [SIGHUP] true (mkConf 10 5) (spi_ok [alice])
         (fun _ => SPI_OK_SELECT) [].

(** SIGTERM handled while the statements of the iteration run. *)
Definition wake_sigterm_in_body : wake :=
  mkWake [] false (mkConf 10 60) (spi_ok [alice])
         (fun _ => SPI_OK_SELECT) [SIGTERM].

(** Two SIGHUPs during one wait; the file sets the naptime to 30 seconds
    and the timeout to 0, which is below its lower bound. *)
Definition wake_reload_naptime : wake :=
  mkWake [SIGHUP; SIGHUP] false (mkConf 30 0) (spi_ok [])
         (fun _ => SPI_OK_SELECT) [].

(** SIGTERM handled during a wait that also reports postmaster death. *)
Definition wake_sigterm_postmaster_death : wake :=
  mkWake [SIGTERM] true (mkConf 10 60) (spi_ok [alice])
         (fun _ => SPI_OK_SELECT) [].

(** The backend of the worker: pid 1, at 1000 s (in microseconds). *)
Definition worker_backend : backend := mkBackend 1 1000000000.

(** A client session of pid 7 in database "app", idle for 10 seconds at
    the time of [worker_backend]. *)
Definition idle_10_seconds : session :=
  mkSession (Some 7) (Some "alice") (Some "app") (Some "psql") None
            (Some "idle") (Some 990000000).

(** A background worker's row: state and state_change are null. *)
Definition background_worker_row : session :=
  mkSession (Some 9) None None (Some "pg_timeout_worker") None None None.

(** A session idle for just under 1000 seconds. *)
Definition idle_since_100_us : session :=
  mkSession (Some 7) (Some "alice") (Some "app") None None
            (Some "idle") (Some 100).

(** The value of a C [long] of [bits] bits that holds the integer [v]
    modulo [2 ^ bits] (two's complement). *)
Definition wrap_long (bits : Z) (v : Z) : Z :=
  (v + 2 ^ (bits - 1)) mod 2 ^ bits - 2 ^ (bits - 1).

(** A wait whose timeout, a product of a naptime in [1, INT_MAX] by 1000,
    is the same number in a 64-bit [long]. *)
Definition wait_of_naptime (e : event) : Prop :=
  match e with
  | WaitLatch ms =>
      exists naptime, 1 <= naptime <= INT_MAX /\
                      ms = naptime * 1000 /\
                      wrap_long 64 ms = ms
  | _ => True
  end.

(** ** Further readers of a trace and of the environment *)

Definition is_SIGHUP (s : signal) : bool :=
  match s with
  | SIGHUP => true
  | SIGTERM => false
  end.

Definition is_SIGTERM (s : signal) : bool :=
  match s with
  | SIGTERM => true
  | SIGHUP => false
  end.

Definition is_ProcessConfigFile (e : event) : bool :=
  match e with
  | ProcessConfigFile => true
  | _ => false
  end.

Definition is_CommitTransactionCommand (e : event) : bool :=
  match e with
  | CommitTransactionCommand => true
  | _ => false
  end.

(** A monitor of the transaction discipline, reading a trace from left to
    right with the flag "a transaction is open".  A transaction is started
    only when none is open and committed only when one is open; a
    statement is executed only inside a transaction; the worker waits and
    reloads its configuration only outside.  [None]: the discipline is
    broken. *)
Definition tx_step (open : bool) (e : event) : option bool :=
  match e with
  | StartTransactionCommand => if open then None else Some true
  | CommitTransactionCommand => if open then Some false else None
  | SPI_execute _ => if open then Some true else None
  | WaitLatch _ => if open then None else Some false
  | ProcessConfigFile => if open then None else Some false
  | _ => Some open
  end.

Fixpoint tx_run (open : bool) (tr : list event) : option bool :=
  match tr with
  | [] => Some open
  | e :: tr' =>
      match tx_step open e with
      | Some open' => tx_run open' tr'
      | None => None
      end
  end.

(** A wake-up at which nothing stops the worker: the postmaster is alive,
    no SIGTERM is handled, and the statements that run succeed. *)
Definition calm (bs bk : string) (w : wake) : bool :=
  negb (postmaster_death w)
  && negb (existsb is_SIGTERM (signals_in_wait w))
  && negb (existsb is_SIGTERM (signals_in_body w))
  && (fst (select_result w bs) =? SPI_OK_SELECT)
  && (match snd (select_result w bs) with
      | [] => true
      | _ :: _ => kill_result w bk =? SPI_OK_SELECT
      end).

(** Both settings within the bounds [_PG_init] declares for them. *)
Definition settings_in_bounds (g : globals) : Prop :=
  1 <= pg_timeout_idle_session_timeout g <= INT_MAX /\
  1 <= pg_timeout_naptime g <= INT_MAX.

Definition exits_with_1 (e : event) : Prop :=
  match e with
  | proc_exit code => code = 1
  | _ => True
  end.

(** ** Registration of the worker: [_PG_init] (lines 286-346) *)

Module PgInit.

(** [BGWORKER_SHMEM_ACCESS] and [BGWORKER_BACKEND_DATABASE_CONNECTION] of
    PostgreSQL's postmaster/bgworker.h. *)
Definition BGWORKER_SHMEM_ACCESS : Z := 1.
Definition BGWORKER_BACKEND_DATABASE_CONNECTION : Z := 2.

Inductive BgWorkerStartTime : Type := BgWorkerStart_RecoveryFinished.

Inductive GucContext : Type := PGC_SIGHUP.

(** The fields of [BackgroundWorker] that [_PG_init] sets after the
    [memset]; [bgw_type] is the field of PostgreSQL 11 and later. *)
Record BackgroundWorker : Type := mkBackgroundWorker {
  bgw_flags : Z;
  bgw_start_time : BgWorkerStartTime;
  bgw_restart_time : Z;
  bgw_library_name : string;
  bgw_function_name : string;
  bgw_notify_pid : Z;
  bgw_name : string;
  bgw_type : string;
  bgw_main_arg : Z
}.

Inductive init_event : Type :=
| DefineCustomIntVariable
    (name short_desc : string) (bootValue minValue maxValue : Z)
    (context : GucContext)
| RegisterBackgroundWorker (worker : BackgroundWorker)
| elog (lvl : elevel) (fmt : string) (args : list arg).

(** The value [DefineCustomIntVariable] leaves in the variable: the boot
    value, or the value the configuration already holds for that name
    when it is within the bounds. *)
Definition defined_value (bootValue : Z) (configured : option Z) : Z :=
  match configured with
  | Some v => guc_assign bootValue v
  | None => bootValue
  end.

(** [_PG_init].  [preload] is
    [process_shared_preload_libraries_in_progress]; [configured] holds
    what the configuration gives for the two names, if anything.  The
    result is the calls made and the globals left behind. *)
Definition _PG_init (preload : bool)
  (configured_naptime configured_timeout : option Z) (g : globals)
  : list init_event * globals :=
  let naptime := defined_value 10 configured_naptime in
  let g := set_settings (pg_timeout_idle_session_timeout g) naptime g in
  let ev1 :=
    [DefineCustomIntVariable "pg_timeout.naptime"
       "Duration between each check (in seconds)." 10 1 INT_MAX PGC_SIGHUP] in
  if negb preload then (ev1, g)
  else
    let timeout := defined_value 60 configured_timeout in
    let g := set_settings timeout (pg_timeout_naptime g) g in
    let worker :=
      mkBackgroundWorker
        (Z.lor BGWORKER_SHMEM_ACCESS BGWORKER_BACKEND_DATABASE_CONNECTION)
        BgWorkerStart_RecoveryFinished
        (pg_timeout_naptime g)
        "pg_timeout" "pg_timeout_main" 0
        "pg_timeout_worker" "pg_timeout" 0 in
    (ev1
     ++ [DefineCustomIntVariable "pg_timeout.idle_session_timeout"
           "Maximum idle session time." 60 1 INT_MAX PGC_SIGHUP;
         RegisterBackgroundWorker worker;
         elog LOG "%s started with pg_timeout.naptime=%d seconds"
              [ArgStr (Some (bgw_name worker));
               ArgInt (pg_timeout_naptime g)];
         elog LOG "%s started with pg_timeout.idle_session_timeout=%d seconds"
              [ArgStr (Some (bgw_name worker));
               ArgInt (pg_timeout_idle_session_timeout g)]],
     g).

(** The file-level variables as the C initialisers leave them. *)
Definition static_globals : globals := mkGlobals false false 0 0.

Definition registered (evs : list init_event) : list BackgroundWorker :=
  flat_map (fun e => match e with
                     | RegisterBackgroundWorker w => [w]
                     | _ => []
                     end) evs.

End PgInit.

(** * Properties *)

(** ** The statements *)

Lemma build_select_render (timeout : Z) :
  build_select timeout = render (select_statement timeout).
Proof. reflexivity. Qed.

Lemma build_kill_render (timeout : Z) :
  build_kill timeout = render (kill_statement timeout).
Proof. reflexivity. Qed.

Lemma selected_idle_window (b : backend) (timeout : Z) (s : session) :
  selected b (idle_window timeout) s = true <->
  (exists p, s_pid s = Some p /\ p <> pg_backend_pid b) /\
  s_state s = Some "idle" /\
  (exists ts, s_state_change s = Some ts /\
              ts < current_timestamp b - timeout * 1000000).
Proof.
  unfold selected, idle_window, holds; cbn [forallb].
  destruct (s_pid s) as [p|], (s_state s) as [st|], (s_state_change s) as [ts|];
    cbn [option_map]; split;
    try (intros H; repeat rewrite ?andb_false_r, ?andb_false_l in H; discriminate);
    try (intros [[p' [E _]] [E1 [ts' [E2 _]]]]; discriminate).
  - intros H.
    destruct (negb (p =? pg_backend_pid b)) eqn:Hp; [|discriminate].
    destruct (String.eqb st "idle") eqn:Hs; [|discriminate].
    destruct (ts <? current_timestamp b - timeout * 1000000) eqn:Ht; [|discriminate].
    apply negb_true_iff, Z.eqb_neq in Hp.
    apply String.eqb_eq in Hs. apply Z.ltb_lt in Ht.
    subst st. repeat split; eauto.
  - intros [[p' [E Hp]] [E1 [ts' [E2 Ht]]]].
    injection E as <-. injection E1 as ->. injection E2 as <-.
    apply Z.eqb_neq in Hp. apply Z.ltb_lt in Ht.
    rewrite Hp, Ht. reflexivity.
Qed.

Lemma append_inv_head (p a b : string) :
  (p ++ a = p ++ b)%string -> a = b.
Proof.
  induction p as [|c p IH]; cbn [append]; intros H; [exact H|].
  injection H as H. apply IH. exact H.
Qed.

Lemma list_ascii_of_append (a b : string) :
  list_ascii_of_string (a ++ b)%string
  = list_ascii_of_string a ++ list_ascii_of_string b.
Proof.
  induction a as [|c a IH]; cbn; [reflexivity|]. now rewrite IH.
Qed.

Lemma append_inv_tail (a b s : string) :
  (a ++ s = b ++ s)%string -> a = b.
Proof.
  intros H. apply (f_equal list_ascii_of_string) in H.
  rewrite !list_ascii_of_append in H. apply app_inv_tail in H.
  rewrite <- (string_of_list_ascii_of_string a),
          <- (string_of_list_ascii_of_string b), H.
  reflexivity.
Qed.

Lemma to_int_not_nil (n : Z) :
  Z.to_int n <> Decimal.Pos Decimal.Nil /\ Z.to_int n <> Decimal.Neg Decimal.Nil.
Proof.
  destruct n as [|p|p]; cbn; split; try discriminate;
    intros H; injection H as H; exact (DecimalPos.Unsigned.to_uint_nonnil p H).
Qed.

(** The decimal text of [%d] reads back as the number. *)
Lemma fmt_d_read_back (n : Z) :
  option_map Z.of_int (NilZero.int_of_string (fmt_d n)) = Some n.
Proof.
  unfold fmt_d. destruct (to_int_not_nil n) as [H1 H2].
  rewrite NilZero.isi by assumption. cbn [option_map].
  now rewrite DecimalZ.of_to.
Qed.

Lemma fmt_d_inj (n m : Z) : fmt_d n = fmt_d m -> n = m.
Proof.
  intros H. pose proof (fmt_d_read_back n) as Hn.
  rewrite H, fmt_d_read_back in Hn. now injection Hn.
Qed.

(** *** The reader on the statements the worker builds *)

Lemma read_until_uint (d : Decimal.uint) (rest : string) :
  read_until "'" (NilEmpty.string_of_uint d ++ String "'" rest)%string
  = Some (NilEmpty.string_of_uint d, rest).
Proof.
  induction d; cbn [NilEmpty.string_of_uint append read_until];
    try (rewrite IHd); reflexivity.
Qed.

Lemma read_until_nilzero (d : Decimal.uint) (rest : string) :
  read_until "'" (NilZero.string_of_uint d ++ String "'" rest)%string
  = Some (NilZero.string_of_uint d, rest).
Proof.
  destruct d; try reflexivity;
    match goal with
    | |- context [NilZero.string_of_uint ?x] =>
        change (NilZero.string_of_uint x) with (NilEmpty.string_of_uint x)
    end; apply read_until_uint.
Qed.

(** The text of [%d] holds no quote: it is read up to the quote that
    follows it. *)
Lemma read_until_fmt_d (n : Z) (rest : string) :
  read_until "'" (fmt_d n ++ String "'" rest)%string = Some (fmt_d n, rest).
Proof.
  unfold fmt_d, NilZero.string_of_int.
  destruct (Z.to_int n) as [d|d].
  - apply read_until_nilzero.
  - cbn [append read_until].
    change (Ascii.eqb "-" "'") with false. cbv iota.
    rewrite read_until_nilzero. reflexivity.
Qed.

Lemma read_number_fmt_d (n : Z) : read_number (fmt_d n) = Some n.
Proof. apply fmt_d_read_back. Qed.

(** The text [buf_select] holds is read as the select over
    [pg_stat_activity] under the three comparisons, with the number of
    seconds that was printed into it. *)
Lemma read_statement_build_select (timeout : Z) :
  read_statement (build_select timeout) = Some (select_statement timeout).
Proof.
  change (build_select timeout) with
    ("SELECT pid, usename, datname, application_name, client_hostname "
       ++ ("FROM pg_stat_activity WHERE pid <> pg_backend_pid() "
       ++ ("AND state = 'idle' AND state_change < current_timestamp - INTERVAL '"
       ++ (fmt_d timeout ++ "' SECOND"))))%string.
  unfold read_statement. cbn -[fmt_d].
  rewrite read_until_fmt_d. cbn -[fmt_d].
  rewrite read_number_fmt_d. reflexivity.
Qed.

Lemma read_statement_build_kill (timeout : Z) :
  read_statement (build_kill timeout) = Some (kill_statement timeout).
Proof.
  change (build_kill timeout) with
    ("SELECT pg_terminate_backend(pid) "
       ++ ("FROM pg_stat_activity WHERE pid <> pg_backend_pid() "
       ++ ("AND state = 'idle' AND state_change < current_timestamp - INTERVAL '"
       ++ (fmt_d timeout ++ "' SECOND"))))%string.
  unfold read_statement. cbn -[fmt_d].
  rewrite read_until_fmt_d. cbn -[fmt_d].
  rewrite read_number_fmt_d. reflexivity.
Qed.

Lemma selects_build_select (b : backend) (timeout : Z) (s : session) :
  selects b (build_select timeout) s = Some (selected b (idle_window timeout) s).
Proof. unfold selects. rewrite read_statement_build_select. reflexivity. Qed.

Lemma selects_build_kill (b : backend) (timeout : Z) (s : session) :
  selects b (build_kill timeout) s = Some (selected b (idle_window timeout) s).
Proof. unfold selects. rewrite read_statement_build_kill. reflexivity. Qed.


(** ** Signals *)

Lemma deliver_signals_sigterm (sigs : list signal) (g : globals) :
  got_sigterm (deliver_signals sigs g) = true <->
  got_sigterm g = true \/ In SIGTERM sigs.
Proof.
  unfold deliver_signals. revert g.
  induction sigs as [|s sigs IH]; intros g; cbn [fold_left].
  - cbn. tauto.
  - rewrite IH. destruct s; cbn; split; intros H.
    + destruct H as [H|H]; auto.
    + destruct H as [H|[H|H]]; auto. discriminate.
    + auto.
    + auto.
Qed.

Lemma deliver_signals_settings (sigs : list signal) (g : globals) :
  pg_timeout_idle_session_timeout (deliver_signals sigs g)
  = pg_timeout_idle_session_timeout g /\
  pg_timeout_naptime (deliver_signals sigs g) = pg_timeout_naptime g.
Proof.
  unfold deliver_signals. revert g.
  induction sigs as [|s sigs IH]; intros g; cbn [fold_left]; [tauto|].
  destruct (IH (handle g s)) as [-> ->]. destruct s; cbn; tauto.
Qed.

Lemma after_reload_sigterm (w : wake) (g : globals) :
  got_sigterm (after_reload w g) = got_sigterm (after_wait w g).
Proof.
  unfold after_reload. destruct (got_sighup (after_wait w g)); reflexivity.
Qed.

(** ** Running the rows and one iteration *)

Lemma row_body_run (t : tuple) (g : globals) :
  row_body t g = (trace (row_body t g), Ret tt g).
Proof. unfold row_body. destruct (t_pid t); reflexivity. Qed.

Lemma row_body_trace_indep (t : tuple) (g g' : globals) :
  trace (row_body t g) = trace (row_body t g').
Proof. unfold row_body. destruct (t_pid t); reflexivity. Qed.

Lemma for_rows_run (rows : list tuple) (g : globals) :
  for_rows rows g = (row_lines rows g, Ret tt g).
Proof.
  unfold row_lines.
  induction rows as [|t rows IH]; [reflexivity|].
  cbn [for_rows flat_map]. unfold bind at 1.
  rewrite row_body_run, IH. reflexivity.
Qed.

Lemma row_lines_indep (rows : list tuple) (g g' : globals) :
  row_lines rows g = row_lines rows g'.
Proof.
  unfold row_lines. apply flat_map_ext.
  intros t. apply row_body_trace_indep.
Qed.

Ltac run_body :=
  unfold loop_body, do_ProcessConfigFile, bind, gets, modify, call, when,
    do_proc_exit, do_elog, ret; cbn [fst snd app].

Lemma loop_body_postmaster_death bs bk (w : wake) (g : globals) :
  postmaster_death w = true ->
  loop_body bs bk w g
  = ([WaitLatch (pg_timeout_naptime g * 1000); proc_exit 1], Exit 1).
Proof. intros H. run_body. rewrite H. reflexivity. Qed.

Section Iteration.

Variables (bs bk : string) (w : wake) (g : globals).
Hypothesis alive : postmaster_death w = false.

Lemma loop_body_select_failed :
  fst (select_result w bs) <> SPI_OK_SELECT ->
  loop_body bs bk w g
  = (prologue bs w g
     ++ [elog FATAL "cannot select from pg_stat_activity: error code %d"
              [ArgInt (fst (select_result w bs))]],
     Abort).
Proof.
  intros H. apply Z.eqb_neq in H.
  run_body. rewrite alive. unfold prologue, after_wait.
  destruct (got_sighup (deliver_signals (signals_in_wait w) g));
    cbn [fst snd app]; rewrite H; reflexivity.
Qed.

Lemma loop_body_no_rows :
  fst (select_result w bs) = SPI_OK_SELECT ->
  snd (select_result w bs) = [] ->
  loop_body bs bk w g
  = (prologue bs w g ++ epilogue,
     Ret tt (deliver_signals (signals_in_body w) (after_reload w g))).
Proof.
  intros H H0. apply Z.eqb_eq in H.
  run_body. rewrite alive. unfold prologue, after_reload, after_wait.
  destruct (got_sighup (deliver_signals (signals_in_wait w) g));
    cbn [fst snd app]; rewrite H, H0; reflexivity.
Qed.

Lemma loop_body_kill_failed :
  fst (select_result w bs) = SPI_OK_SELECT ->
  snd (select_result w bs) <> [] ->
  kill_result w bk <> SPI_OK_SELECT ->
  loop_body bs bk w g
  = (prologue bs w g
     ++ row_lines (snd (select_result w bs)) g
     ++ [SPI_execute bk;
         elog FATAL "cannot select pg_terminate_backend: error code %d"
              [ArgInt (kill_result w bk)]],
     Abort).
Proof.
  intros H H0 H1. apply Z.eqb_eq in H. apply Z.eqb_neq in H1.
  assert (Hnr : (0 <? Z.of_nat (List.length (snd (select_result w bs)))) = true).
  { apply Z.ltb_lt. destruct (snd (select_result w bs)); [congruence|cbn; lia]. }
  run_body. rewrite alive. unfold prologue, after_wait.
  destruct (got_sighup (deliver_signals (signals_in_wait w) g));
    cbn [fst snd app]; rewrite H; cbn [negb fst snd app];
    rewrite for_rows_run, Hnr, H1; cbn [negb fst snd app];
    try rewrite <- !app_assoc; cbn [app];
    rewrite (row_lines_indep _ _ g); reflexivity.
Qed.

Lemma loop_body_killed :
  fst (select_result w bs) = SPI_OK_SELECT ->
  snd (select_result w bs) <> [] ->
  kill_result w bk = SPI_OK_SELECT ->
  loop_body bs bk w g
  = (prologue bs w g
     ++ row_lines (snd (select_result w bs)) g
     ++ [SPI_execute bk;
         elog LOG "%s: idle session(s) since %d seconds terminated"
              [ArgStr (Some bgw_name);
               ArgInt (pg_timeout_idle_session_timeout (after_reload w g))]]
     ++ epilogue,
     Ret tt (deliver_signals (signals_in_body w) (after_reload w g))).
Proof.
  intros H H0 H1. apply Z.eqb_eq in H. apply Z.eqb_eq in H1.
  assert (Hnr : (0 <? Z.of_nat (List.length (snd (select_result w bs)))) = true).
  { apply Z.ltb_lt. destruct (snd (select_result w bs)); [congruence|cbn; lia]. }
  run_body. rewrite alive. unfold prologue, after_reload, after_wait.
  destruct (got_sighup (deliver_signals (signals_in_wait w) g));
    cbn [fst snd app]; rewrite H; cbn [negb fst snd app];
    rewrite for_rows_run, Hnr, H1; cbn [negb fst snd app];
    try rewrite <- !app_assoc; cbn [app];
    rewrite (row_lines_indep _ _ g); reflexivity.
Qed.

End Iteration.

(** ** Reading the trace of an iteration *)

Lemma executed_queries_app (a b : list event) :
  executed_queries (a ++ b) = executed_queries a ++ executed_queries b.
Proof. apply flat_map_app. Qed.

Lemma count_app (p : event -> bool) (a b : list event) :
  count p (a ++ b) = (count p a + count p b)%nat.
Proof. unfold count. rewrite filter_app. apply length_app. Qed.

Lemma executed_queries_prologue bs (w : wake) (g : globals) :
  executed_queries (prologue bs w g) = [bs].
Proof.
  unfold prologue. destruct (got_sighup (after_wait w g)); reflexivity.
Qed.

Lemma executed_queries_row_lines (rows : list tuple) (g : globals) :
  executed_queries (row_lines rows g) = [].
Proof.
  unfold row_lines.
  induction rows as [|t rows IH]; [reflexivity|].
  cbn [flat_map]. rewrite executed_queries_app, IH.
  unfold row_body. destruct (t_pid t); reflexivity.
Qed.

Lemma count_prologue_start bs (w : wake) (g : globals) :
  count is_StartTransactionCommand (prologue bs w g) = 1%nat.
Proof.
  unfold prologue. destruct (got_sighup (after_wait w g)); reflexivity.
Qed.

Lemma count_prologue_wait bs (w : wake) (g : globals) :
  count is_WaitLatch (prologue bs w g) = 1%nat.
Proof.
  unfold prologue. destruct (got_sighup (after_wait w g)); reflexivity.
Qed.

Ltac count_prologue :=
  intros; unfold prologue;
  match goal with
  | |- context [got_sighup ?x] => destruct (got_sighup x)
  end; reflexivity.

Lemma count_prologue_warning bs (w : wake) (g : globals) :
  count is_warning (prologue bs w g) = 0%nat.
Proof. count_prologue. Qed.

Lemma count_prologue_idle bs (w : wake) (g : globals) :
  count is_idle_session_line (prologue bs w g) = 0%nat.
Proof. count_prologue. Qed.

Lemma count_prologue_terminated bs (w : wake) (g : globals) :
  count is_terminated_line (prologue bs w g) = 0%nat.
Proof. count_prologue. Qed.

Ltac count_rows :=
  let t := fresh "t" in
  let rows := fresh "rows" in
  let IH := fresh "IH" in
  intros rows; unfold row_lines;
  induction rows as [|t rows IH]; [reflexivity|];
  cbn [flat_map filter]; rewrite count_app, IH;
  unfold row_body, pid_is_null; destruct (t_pid t); reflexivity.

Lemma count_row_lines_warning (g : globals) :
  forall rows,
    count is_warning (row_lines rows g)
    = List.length (filter pid_is_null rows).
Proof. count_rows. Qed.

Lemma count_row_lines_idle (g : globals) :
  forall rows,
    count is_idle_session_line (row_lines rows g)
    = List.length (filter (fun t => negb (pid_is_null t)) rows).
Proof. count_rows. Qed.

Lemma count_row_lines_terminated (g : globals) :
  forall rows, count is_terminated_line (row_lines rows g) = 0%nat.
Proof. count_rows. Qed.

Lemma count_row_lines_start (g : globals) :
  forall rows, count is_StartTransactionCommand (row_lines rows g) = 0%nat.
Proof. count_rows. Qed.

Lemma count_row_lines_wait (g : globals) :
  forall rows, count is_WaitLatch (row_lines rows g) = 0%nat.
Proof. count_rows. Qed.

Ltac read_trace :=
  cbn [trace outcome fst snd];
  rewrite ?count_app, ?executed_queries_app,
    ?executed_queries_prologue, ?executed_queries_row_lines,
    ?count_prologue_start, ?count_prologue_wait, ?count_prologue_warning,
    ?count_prologue_idle, ?count_prologue_terminated,
    ?count_row_lines_warning, ?count_row_lines_idle,
    ?count_row_lines_terminated, ?count_row_lines_start,
    ?count_row_lines_wait.

(** ** The loop *)

Lemma main_loop_sigterm bs bk (env : list wake) (g : globals) :
  got_sigterm g = true ->
  main_loop bs bk env g = ([proc_exit 1], Exit 1).
Proof.
  intros H. destruct env; cbn [main_loop]; unfold bind, gets;
    rewrite H; reflexivity.
Qed.

Lemma main_loop_nil bs bk (g : globals) :
  got_sigterm g = false ->
  main_loop bs bk [] g = ([], Ret tt g).
Proof.
  intros H. cbn [main_loop]. unfold bind, gets. rewrite H. reflexivity.
Qed.

Lemma main_loop_cons bs bk (w : wake) (env : list wake) (g : globals) :
  got_sigterm g = false ->
  main_loop bs bk (w :: env) g
  = match loop_body bs bk w g with
    | (tr, Ret _ g') =>
        (tr ++ trace (main_loop bs bk env g'),
         outcome (main_loop bs bk env g'))
    | (tr, Exit c) => (tr, Exit c)
    | (tr, Abort) => (tr, Abort)
    end.
Proof.
  intros H. cbn [main_loop]. unfold bind at 1. unfold gets at 1.
  rewrite H. cbn [app]. unfold bind at 1.
  destruct (loop_body bs bk w g) as [tr [[] g'|c|]]; try reflexivity.
  unfold trace, outcome.
  destruct (main_loop bs bk env g') as [tr' r]. reflexivity.
Qed.

Lemma allowed_prologue bs bk (w : wake) (g : globals) :
  Forall (allowed bs bk) (prologue bs w g).
Proof.
  unfold prologue. destruct (got_sighup (after_wait w g)); cbn [app];
    repeat constructor; cbn; auto.
Qed.

Lemma allowed_row_lines bs bk (rows : list tuple) (g : globals) :
  Forall (allowed bs bk) (row_lines rows g).
Proof.
  unfold row_lines. induction rows as [|t rows IH]; [constructor|].
  cbn [flat_map]. apply Forall_app. split; [|exact IH].
  unfold row_body. destruct (t_pid t); repeat constructor.
Qed.

Ltac allowed_pieces :=
  repeat match goal with
         | |- Forall _ (prologue _ _ _) => apply allowed_prologue
         | |- Forall _ (row_lines _ _) => apply allowed_row_lines
         | |- Forall _ (_ ++ _) => apply Forall_app; split
         | |- Forall _ [] => apply Forall_nil
         | |- Forall _ (_ :: _) => apply Forall_cons; [cbn; auto|]
         | |- Forall _ epilogue => unfold epilogue
         end.

Lemma allowed_loop_body bs bk (w : wake) (g : globals) :
  Forall (allowed bs bk) (trace (loop_body bs bk w g)).
Proof.
  destruct (postmaster_death w) eqn:Hd.
  { rewrite loop_body_postmaster_death by exact Hd. repeat constructor. }
  destruct (Z.eq_dec (fst (select_result w bs)) SPI_OK_SELECT) as [Hs|Hs].
  2:{ rewrite loop_body_select_failed by assumption. cbn [trace fst].
      allowed_pieces. }
  destruct (snd (select_result w bs)) as [|t rows] eqn:Hr.
  { rewrite loop_body_no_rows by assumption. cbn [trace fst].
    allowed_pieces. }
  assert (Hne : snd (select_result w bs) <> []) by (rewrite Hr; discriminate).
  destruct (Z.eq_dec (kill_result w bk) SPI_OK_SELECT) as [Hk|Hk].
  - rewrite loop_body_killed by assumption. cbn [trace fst].
    allowed_pieces.
  - rewrite loop_body_kill_failed by assumption. cbn [trace fst].
    allowed_pieces.
Qed.

Lemma allowed_main_loop bs bk (env : list wake) (g : globals) :
  Forall (allowed bs bk) (trace (main_loop bs bk env g)).
Proof.
  revert g. induction env as [|w env IH]; intros g;
    destruct (got_sigterm g) eqn:Ht;
    try (rewrite main_loop_sigterm by exact Ht; repeat constructor).
  - rewrite main_loop_nil by exact Ht. constructor.
  - rewrite main_loop_cons by exact Ht.
    pose proof (allowed_loop_body bs bk w g) as Hb.
    destruct (loop_body bs bk w g) as [tr [[] g'|c|]]; cbn [trace fst] in *;
      try exact Hb.
    apply Forall_app. split; [exact Hb|apply IH].
Qed.

Lemma executed_queries_allowed bs bk (tr : list event) :
  Forall (allowed bs bk) tr ->
  Forall (fun q => q = bs \/ q = bk) (executed_queries tr).
Proof.
  induction 1 as [|e tr He _ IH]; [constructor|].
  destruct e; cbn [executed_queries flat_map app] in *; try exact IH.
  constructor; assumption.
Qed.

Lemma pg_timeout_main_run (early : list signal) (env : list wake) (g : globals) :
  let timeout := pg_timeout_idle_session_timeout g in
  let run := main_loop (build_select timeout) (build_kill timeout) env
                       (deliver_signals early g) in
  pg_timeout_main early env g
  = (BackgroundWorkerInitializeConnection (Some "postgres") None
     :: elog LOG "%s initialized" [ArgStr (Some bgw_name)]
     :: trace run,
     outcome run).
Proof.
  cbv zeta. unfold pg_timeout_main, bind, gets, modify, call, do_elog.
  cbn [app]. destruct (deliver_signals_settings early g) as [-> _].
  unfold trace, outcome.
  destruct (main_loop _ _ env (deliver_signals early g)) as [tr r].
  reflexivity.
Qed.

(** ** The rows of a result *)

(** The three pointers the code does replace: a null user, database or
    client host name is logged as the string "NULL" whenever the
    application name is present. *)
Lemma row_body_application_present (t : tuple) (g : globals) pid app :
  t_pid t = Some pid ->
  t_application_name t = Some app ->
  trace (row_body t g)
  = [elog LOG LOG_MESSAGE
       [ArgStr (Some bgw_name); ArgInt pid;
        ArgStr (Some (match t_usename t with Some s => s | None => "NULL" end));
        ArgStr (Some (match t_datname t with Some s => s | None => "NULL" end));
        ArgStr (Some app);
        ArgStr (Some (match t_client_hostname t with
                      | Some s => s
                      | None => "NULL"
                      end))]].
Proof.
  intros Hp Ha. unfold row_body. rewrite Hp, Ha.
  destruct (t_usename t), (t_datname t), (t_client_hostname t); reflexivity.
Qed.

(** C3 (code defect): a row whose application name is null and whose other
    columns are all present.  The line is written with a NULL pointer as
    its application argument, not with the string "NULL", and the client
    host name of the row is replaced by "NULL". *)
Theorem C3_null_application_name_is_not_replaced :
  trace (row_body no_application boot_globals)
  = [elog LOG LOG_MESSAGE
       [ArgStr (Some "pg_timeout_worker"); ArgInt 4242;
        ArgStr (Some "alice"); ArgStr (Some "app");
        ArgStr None; ArgStr (Some "NULL")]].
Proof. reflexivity. Qed.

(** C4: for every processed row (pid not null) whose application name is
    null, the placeholder goes to the client host name variable: the line
    is written with a NULL application argument and with "NULL" as host
    name, whatever host name the row had. *)
Theorem C4_placeholder_assigned_to_client_hostname
  (t : tuple) (g : globals) (pid : Z) :
  t_pid t = Some pid ->
  t_application_name t = None ->
  row_body t g
  = ([elog LOG LOG_MESSAGE
        [ArgStr (Some bgw_name); ArgInt pid;
         ArgStr (if is_NULL (t_usename t) then null_value else t_usename t);
         ArgStr (if is_NULL (t_datname t) then null_value else t_datname t);
         ArgStr None;
         ArgStr (Some "NULL")]],
     Ret tt g).
Proof.
  intros Hp Ha. unfold row_body. rewrite Hp, Ha. reflexivity.
Qed.

Lemma C4_witness :
  t_pid no_application = Some 4242 /\
  t_application_name no_application = None /\
  t_client_hostname no_application = Some "client.example.org" /\
  row_body no_application boot_globals
  = ([elog LOG LOG_MESSAGE
        [ArgStr (Some bgw_name); ArgInt 4242;
         ArgStr (Some "alice"); ArgStr (Some "app");
         ArgStr None; ArgStr (Some "NULL")]],
     Ret tt boot_globals).
Proof.
  do 3 (split; [reflexivity|]).
  exact (C4_placeholder_assigned_to_client_hostname
           no_application boot_globals 4242 eq_refl eq_refl).
Defined.

(** ** The idle-session predicate *)

(** The three comparisons as the text of the statements carries them: a
    row is returned by the statement built from [timeout] exactly when
    its pid is not the backend's, its state is 'idle' and its
    state_change is more than [timeout] seconds before the current
    timestamp. *)
Lemma selects_build_select_iff (b : backend) (timeout : Z) (s : session) :
  selects b (build_select timeout) s = Some true <->
  (exists p, s_pid s = Some p /\ p <> pg_backend_pid b) /\
  s_state s = Some "idle" /\
  (exists ts, s_state_change s = Some ts /\
              ts < current_timestamp b - timeout * 1000000).
Proof.
  rewrite selects_build_select, <- selected_idle_window.
  split; [intros H; now injection H|intros ->; reflexivity].
Qed.

(** C5 (code defect, the one of C1): in the run of C1 the setting is 5
    seconds after the reload, and the four statements executed are the
    texts below, with '60' between the quotes.  Read back, both texts are
    statements over [pg_stat_activity] under the three comparisons, the
    third with 60 seconds.  A session of another pid, in state 'idle'
    since 10 seconds, meets the three conditions for the setting, 5
    seconds, and is returned by none of the executed statements. *)
Theorem C5_executed_window_is_not_the_live_setting :
  outcome (pg_timeout_main [] [wake_then_sighup; wake_reload_5] boot_globals)
  = Ret tt (mkGlobals false false 5 10) /\
  executed_queries
    (trace (pg_timeout_main [] [wake_then_sighup; wake_reload_5] boot_globals))
  = ["SELECT pid, usename, datname, application_name, client_hostname FROM pg_stat_activity WHERE pid <> pg_backend_pid() AND state = 'idle' AND state_change < current_timestamp - INTERVAL '60' SECOND";
     "SELECT pg_terminate_backend(pid) FROM pg_stat_activity WHERE pid <> pg_backend_pid() AND state = 'idle' AND state_change < current_timestamp - INTERVAL '60' SECOND";
     "SELECT pid, usename, datname, application_name, client_hostname FROM pg_stat_activity WHERE pid <> pg_backend_pid() AND state = 'idle' AND state_change < current_timestamp - INTERVAL '60' SECOND";
     "SELECT pg_terminate_backend(pid) FROM pg_stat_activity WHERE pid <> pg_backend_pid() AND state = 'idle' AND state_change < current_timestamp - INTERVAL '60' SECOND"] /\
  read_statement
    "SELECT pid, usename, datname, application_name, client_hostname FROM pg_stat_activity WHERE pid <> pg_backend_pid() AND state = 'idle' AND state_change < current_timestamp - INTERVAL '60' SECOND"
  = Some (mkStatement
            "pid, usename, datname, application_name, client_hostname"
            "pg_stat_activity"
            [PidIsNotBackendPid; StateIs "idle"; StateChangeBefore 60]) /\
  read_statement
    "SELECT pg_terminate_backend(pid) FROM pg_stat_activity WHERE pid <> pg_backend_pid() AND state = 'idle' AND state_change < current_timestamp - INTERVAL '60' SECOND"
  = Some (mkStatement
            "pg_terminate_backend(pid)"
            "pg_stat_activity"
            [PidIsNotBackendPid; StateIs "idle"; StateChangeBefore 60]) /\
  s_pid idle_10_seconds = Some 7 /\
  7 <> pg_backend_pid worker_backend /\
  s_state idle_10_seconds = Some "idle" /\
  s_state_change idle_10_seconds = Some 990000000 /\
  990000000 < current_timestamp worker_backend - 5 * 1000000 /\
  Forall (fun q => selects worker_backend q idle_10_seconds = Some false)
    (executed_queries
       (trace (pg_timeout_main [] [wake_then_sighup; wake_reload_5]
                               boot_globals))).
Proof.
  split; [vm_compute; reflexivity|].
  split; [vm_compute; reflexivity|].
  do 3 (split; [vm_compute; reflexivity|]).
  split; [discriminate|].
  do 3 (split; [vm_compute; reflexivity|]).
  match goal with
  | |- Forall _ ?l =>
      let l' := eval vm_compute in l in
      replace l with l' by (vm_compute; reflexivity)
  end.
  repeat (apply Forall_cons; [vm_compute; reflexivity|]). apply Forall_nil.
Qed.

(** ** Reload of the configuration *)

(** C1 (code defect): SIGHUP arrives during the first iteration; at the
    second wake-up the worker reloads the file, which now sets the timeout
    to 5 seconds.  The setting becomes 5, and the closing line of the
    second iteration reports 5 seconds, but the statements executed in
    that iteration are still the ones built from 60 before the loop. *)
Theorem C1_statements_not_rebuilt_after_reload :
  executed_queries
    (trace (pg_timeout_main [] [wake_then_sighup; wake_reload_5] boot_globals))
  = [build_select 60; build_kill 60; build_select 60; build_kill 60] /\
  filter is_terminated_line
    (trace (pg_timeout_main [] [wake_then_sighup; wake_reload_5] boot_globals))
  = [elog LOG "%s: idle session(s) since %d seconds terminated"
          [ArgStr (Some bgw_name); ArgInt 60];
     elog LOG "%s: idle session(s) since %d seconds terminated"
          [ArgStr (Some bgw_name); ArgInt 5]] /\
  count (fun e => match e with ProcessConfigFile => true | _ => false end)
    (trace (pg_timeout_main [] [wake_then_sighup; wake_reload_5] boot_globals))
  = 1%nat /\
  outcome (pg_timeout_main [] [wake_then_sighup; wake_reload_5] boot_globals)
  = Ret tt (mkGlobals false false 5 10) /\
  build_select 60 <> build_select 5 /\
  build_kill 60 <> build_kill 5.
Proof.
  do 4 (split; [vm_compute; reflexivity|]).
  split; apply String.eqb_neq; vm_compute; reflexivity.
Qed.

Lemma loop_body_queries bs bk (w : wake) (g : globals) :
  executed_queries (trace (loop_body bs bk w g)) = [] \/
  executed_queries (trace (loop_body bs bk w g)) = [bs] \/
  executed_queries (trace (loop_body bs bk w g)) = [bs; bk].
Proof.
  destruct (postmaster_death w) eqn:Hd.
  { left. rewrite loop_body_postmaster_death by exact Hd. reflexivity. }
  right.
  destruct (Z.eq_dec (fst (select_result w bs)) SPI_OK_SELECT) as [Hs|Hs].
  2:{ left. rewrite loop_body_select_failed by assumption.
      read_trace. reflexivity. }
  destruct (snd (select_result w bs)) as [|t rows] eqn:Hr.
  { left. rewrite loop_body_no_rows by assumption. read_trace. reflexivity. }
  assert (Hne : snd (select_result w bs) <> []) by (rewrite Hr; discriminate).
  right.
  destruct (Z.eq_dec (kill_result w bk) SPI_OK_SELECT) as [Hk|Hk].
  - rewrite loop_body_killed by assumption. read_trace. reflexivity.
  - rewrite loop_body_kill_failed by assumption. read_trace. reflexivity.
Qed.

(** C9: [buf_select] and [buf_kill] are built from the one value the
    timeout has when [pg_timeout_main] starts, and end in the same text
    after WHERE.  The loop runs on these two buffers: an iteration
    executes nothing (postmaster death), [buf_select] alone, or
    [buf_select] and then [buf_kill]; so in every iteration of every run
    the select and the terminate statement carry the same timeout. *)
Theorem C9_select_and_kill_built_from_one_value
  (early : list signal) (env : list wake) (g : globals) :
  build_select (pg_timeout_idle_session_timeout g)
  = ("SELECT pid, usename, datname, application_name, client_hostname "
     ++ ("FROM pg_stat_activity WHERE "
     ++ render_where (idle_window (pg_timeout_idle_session_timeout g))))%string /\
  build_kill (pg_timeout_idle_session_timeout g)
  = ("SELECT pg_terminate_backend(pid) "
     ++ ("FROM pg_stat_activity WHERE "
     ++ render_where (idle_window (pg_timeout_idle_session_timeout g))))%string /\
  pg_timeout_main early env g
  = (BackgroundWorkerInitializeConnection (Some "postgres") None
     :: elog LOG "%s initialized" [ArgStr (Some bgw_name)]
     :: trace (main_loop (build_select (pg_timeout_idle_session_timeout g))
                         (build_kill (pg_timeout_idle_session_timeout g))
                         env (deliver_signals early g)),
     outcome (main_loop (build_select (pg_timeout_idle_session_timeout g))
                        (build_kill (pg_timeout_idle_session_timeout g))
                        env (deliver_signals early g))) /\
  (forall (w : wake) (g' : globals),
     let bs := build_select (pg_timeout_idle_session_timeout g) in
     let bk := build_kill (pg_timeout_idle_session_timeout g) in
     executed_queries (trace (loop_body bs bk w g')) = [] \/
     executed_queries (trace (loop_body bs bk w g')) = [bs] \/
     executed_queries (trace (loop_body bs bk w g')) = [bs; bk]) /\
  Forall (fun q => q = build_select (pg_timeout_idle_session_timeout g) \/
                   q = build_kill (pg_timeout_idle_session_timeout g))
         (executed_queries (trace (pg_timeout_main early env g))).
Proof.
  pose proof (pg_timeout_main_run early env g) as E. cbv zeta in E.
  do 2 (split; [reflexivity|]).
  split; [exact E|].
  split; [intros w g'; apply loop_body_queries|].
  rewrite E. cbn [trace fst executed_queries flat_map app].
  apply executed_queries_allowed, allowed_main_loop.
Qed.

(** ** Shutdown *)

(** C2, as the specification states it, fails: with SIGTERM handled while
    the worker is blocked in [WaitLatch], the worker starts a transaction
    and executes both statements before it leaves the loop. *)
Lemma C2_counterexample :
  got_sigterm boot_globals = false /\
  In SIGTERM (signals_in_wait wake_sigterm) /\
  count is_StartTransactionCommand
    (trace (main_loop (build_select 60) (build_kill 60)
                      [wake_sigterm] boot_globals)) = 1%nat /\
  executed_queries
    (trace (main_loop (build_select 60) (build_kill 60)
                      [wake_sigterm] boot_globals))
  = [build_select 60; build_kill 60] /\
  ~ exits_without_cycle
      (main_loop (build_select 60) (build_kill 60) [wake_sigterm] boot_globals).
Proof.
  split; [reflexivity|]. split; [left; reflexivity|].
  split; [vm_compute; reflexivity|]. split; [vm_compute; reflexivity|].
  intros [H _]. vm_compute in H. discriminate H.
Qed.

Lemma got_sigterm_after_body (w : wake) (g : globals) :
  In SIGTERM (signals_in_wait w) ->
  got_sigterm (deliver_signals (signals_in_body w) (after_reload w g)) = true.
Proof.
  intros H. apply deliver_signals_sigterm. left.
  rewrite after_reload_sigterm. unfold after_wait.
  apply deliver_signals_sigterm. right. exact H.
Qed.

(** C2, amended: a shutdown request set while the worker is blocked in
    [WaitLatch] is seen at the next evaluation of the loop condition, and
    that wait is the last one of the run.  When the same wait reports
    postmaster death the worker exits at once with status 1, with no
    transaction and no statement.  Otherwise the iteration of that
    wake-up runs: exactly one transaction is started, the select
    statement is executed, and the terminate statement too when the
    select succeeded with at least one row; nothing runs after that
    iteration, whatever the environment would have held.  The process
    then ends by [proc_exit(1)] when the statements of the iteration
    succeeded, and by the FATAL abort of the failed statement
    otherwise. *)
Theorem C2_shutdown_seen_after_the_iteration
  bs bk (w : wake) (env : list wake) (g : globals) :
  got_sigterm g = false ->
  In SIGTERM (signals_in_wait w) ->
  count is_WaitLatch (trace (main_loop bs bk (w :: env) g)) = 1%nat /\
  (postmaster_death w = true ->
   exits_without_cycle (main_loop bs bk (w :: env) g) /\
   outcome (main_loop bs bk (w :: env) g) = Exit 1) /\
  (postmaster_death w = false ->
   count is_StartTransactionCommand
     (trace (main_loop bs bk (w :: env) g)) = 1%nat /\
   executed_queries (trace (main_loop bs bk (w :: env) g))
   = bs :: (if fst (select_result w bs) =? SPI_OK_SELECT
            then match snd (select_result w bs) with
                 | [] => []
                 | _ :: _ => [bk]
                 end
            else []) /\
   outcome (main_loop bs bk (w :: env) g)
   = (if fst (select_result w bs) =? SPI_OK_SELECT
      then match snd (select_result w bs) with
           | [] => Exit 1
           | _ :: _ =>
               if kill_result w bk =? SPI_OK_SELECT then Exit 1 else Abort
           end
      else Abort) /\
   (outcome (main_loop bs bk (w :: env) g) = Exit 1 ->
    last (trace (main_loop bs bk (w :: env) g)) ProcessConfigFile
    = proc_exit 1)).
Proof.
  intros Hg Hin.
  pose proof (got_sigterm_after_body w g Hin) as Hafter.
  rewrite main_loop_cons by exact Hg.
  destruct (postmaster_death w) eqn:Hd.
  { rewrite loop_body_postmaster_death by exact Hd.
    split; [reflexivity|]. split; [|discriminate].
    intros _. unfold exits_without_cycle. cbn.
    repeat split; try reflexivity.
    exists 1. split; [reflexivity|discriminate]. }
  destruct (Z.eq_dec (fst (select_result w bs)) SPI_OK_SELECT) as [Hs|Hs].
  2:{ rewrite loop_body_select_failed by assumption.
      apply Z.eqb_neq in Hs. rewrite Hs. read_trace.
      split; [reflexivity|]. split; [discriminate|intros _].
      repeat split; try reflexivity. discriminate. }
  destruct (snd (select_result w bs)) as [|t rows] eqn:Hr.
  { rewrite loop_body_no_rows by assumption.
    rewrite main_loop_sigterm by exact Hafter.
    apply Z.eqb_eq in Hs. rewrite Hs. read_trace. rewrite last_last.
    split; [reflexivity|]. split; [discriminate|intros _].
    repeat split; reflexivity. }
  assert (Hne : snd (select_result w bs) <> []) by (rewrite Hr; discriminate).
  destruct (Z.eq_dec (kill_result w bk) SPI_OK_SELECT) as [Hk|Hk].
  - rewrite loop_body_killed by assumption.
    rewrite main_loop_sigterm by exact Hafter.
    apply Z.eqb_eq in Hs. apply Z.eqb_eq in Hk. rewrite Hs, Hk.
    read_trace. rewrite !app_assoc, last_last.
    split; [reflexivity|]. split; [discriminate|intros _].
    repeat split; reflexivity.
  - rewrite loop_body_kill_failed by assumption.
    apply Z.eqb_eq in Hs. apply Z.eqb_neq in Hk. rewrite Hs, Hk.
    read_trace.
    split; [reflexivity|]. split; [discriminate|intros _].
    repeat split; try reflexivity. discriminate.
Qed.

Lemma C2_witness :
  (count is_StartTransactionCommand
     (trace (main_loop (build_select 60) (build_kill 60)
                       [wake_sigterm; wake_timer] boot_globals)) = 1%nat /\
   outcome (main_loop (build_select 60) (build_kill 60)
                      [wake_sigterm; wake_timer] boot_globals) = Exit 1) /\
  exits_without_cycle
    (main_loop (build_select 60) (build_kill 60)
               [wake_sigterm_postmaster_death; wake_timer] boot_globals).
Proof.
  split.
  - destruct (C2_shutdown_seen_after_the_iteration
                (build_select 60) (build_kill 60) wake_sigterm [wake_timer]
                boot_globals eq_refl (or_introl eq_refl)) as (_ & _ & H).
    destruct (H eq_refl) as (Hc & _ & Ho & _).
    split; [exact Hc|exact Ho].
  - destruct (C2_shutdown_seen_after_the_iteration
                (build_select 60) (build_kill 60)
                wake_sigterm_postmaster_death [wake_timer]
                boot_globals eq_refl (or_introl eq_refl)) as (_ & H & _).
    exact (proj1 (H eq_refl)).
Defined.

(** ** Failure of a statement *)

(** C6: when the select statement does not return [SPI_OK_SELECT] the
    worker writes a FATAL line and the process is aborted: the select is
    the only statement executed, the terminate statement is not attempted
    and no later iteration runs.  The terminate statement has the same
    policy: a result other than [SPI_OK_SELECT] aborts the process right
    after that one attempt. *)
Theorem C6_statement_failure_is_fatal
  bs bk (w : wake) (env : list wake) (g : globals) :
  got_sigterm g = false ->
  postmaster_death w = false ->
  (fst (select_result w bs) <> SPI_OK_SELECT ->
   outcome (main_loop bs bk (w :: env) g) = Abort /\
   executed_queries (trace (main_loop bs bk (w :: env) g)) = [bs] /\
   last (trace (main_loop bs bk (w :: env) g)) ProcessConfigFile
   = elog FATAL "cannot select from pg_stat_activity: error code %d"
          [ArgInt (fst (select_result w bs))]) /\
  (fst (select_result w bs) = SPI_OK_SELECT ->
   snd (select_result w bs) <> [] ->
   kill_result w bk <> SPI_OK_SELECT ->
   outcome (main_loop bs bk (w :: env) g) = Abort /\
   executed_queries (trace (main_loop bs bk (w :: env) g)) = [bs; bk] /\
   last (trace (main_loop bs bk (w :: env) g)) ProcessConfigFile
   = elog FATAL "cannot select pg_terminate_backend: error code %d"
          [ArgInt (kill_result w bk)]).
Proof.
  intros Hg Hd. rewrite main_loop_cons by exact Hg. split.
  - intros Hs. rewrite loop_body_select_failed by assumption.
    read_trace. rewrite last_last. repeat split; reflexivity.
  - intros Hs Hr Hk. rewrite loop_body_kill_failed by assumption.
    read_trace.
    change [SPI_execute bk;
            elog FATAL "cannot select pg_terminate_backend: error code %d"
                 [ArgInt (kill_result w bk)]]
      with ([SPI_execute bk]
            ++ [elog FATAL "cannot select pg_terminate_backend: error code %d"
                     [ArgInt (kill_result w bk)]]).
    rewrite !app_assoc, last_last. repeat split; reflexivity.
Qed.

Lemma C6_witness :
  (outcome (main_loop (build_select 60) (build_kill 60)
                      [wake_select_error; wake_timer] boot_globals) = Abort /\
   executed_queries
     (trace (main_loop (build_select 60) (build_kill 60)
                       [wake_select_error; wake_timer] boot_globals))
   = [build_select 60]) /\
  (outcome (main_loop (build_select 60) (build_kill 60)
                      [wake_kill_error; wake_timer] boot_globals) = Abort /\
   executed_queries
     (trace (main_loop (build_select 60) (build_kill 60)
                       [wake_kill_error; wake_timer] boot_globals))
   = [build_select 60; build_kill 60]).
Proof.
  split.
  - destruct (C6_statement_failure_is_fatal
                (build_select 60) (build_kill 60) wake_select_error
                [wake_timer] boot_globals eq_refl eq_refl) as [H _].
    assert (Hs : fst (select_result wake_select_error (build_select 60))
                 <> SPI_OK_SELECT) by (vm_compute; discriminate).
    split; apply (H Hs).
  - destruct (C6_statement_failure_is_fatal
                (build_select 60) (build_kill 60) wake_kill_error
                [wake_timer] boot_globals eq_refl eq_refl) as [_ H].
    assert (Hr : snd (select_result wake_kill_error (build_select 60)) <> [])
      by (vm_compute; discriminate).
    assert (Hk : kill_result wake_kill_error (build_kill 60) <> SPI_OK_SELECT)
      by (vm_compute; discriminate).
    split; apply (H eq_refl Hr Hk).
Defined.

(** ** Rows with a null pid *)

(** C7: in an iteration whose statements succeed, every row with a null
    pid gives exactly one WARNING line and no idle-session line, every
    other row gives exactly one idle-session line, and the iteration runs
    to its end without aborting: the number of WARNING lines of the
    iteration is the number of null-pid rows. *)
Theorem C7_null_pid_row_warned_and_skipped
  bs bk (w : wake) (g : globals) :
  postmaster_death w = false ->
  fst (select_result w bs) = SPI_OK_SELECT ->
  kill_result w bk = SPI_OK_SELECT ->
  (forall t, pid_is_null t = true ->
     row_body t g
     = ([elog WARNING "%s: pid is NULL" [ArgStr (Some bgw_name)]], Ret tt g)) /\
  count is_warning (trace (loop_body bs bk w g))
  = List.length (filter pid_is_null (snd (select_result w bs))) /\
  count is_idle_session_line (trace (loop_body bs bk w g))
  = List.length (filter (fun t => negb (pid_is_null t))
                        (snd (select_result w bs))) /\
  outcome (loop_body bs bk w g)
  = Ret tt (deliver_signals (signals_in_body w) (after_reload w g)) /\
  last (trace (loop_body bs bk w g)) ProcessConfigFile
  = pgstat_report_activity STATE_IDLE None.
Proof.
  intros Hd Hs Hk. split.
  { intros t Ht. unfold row_body, pid_is_null in *.
    destruct (t_pid t); [discriminate Ht|reflexivity]. }
  destruct (snd (select_result w bs)) as [|t rows] eqn:Hr.
  - rewrite loop_body_no_rows by assumption.
    read_trace. unfold epilogue.
    change [CommitTransactionCommand; pgstat_report_activity STATE_IDLE None]
      with ([CommitTransactionCommand]
            ++ [pgstat_report_activity STATE_IDLE None]).
    rewrite app_assoc, last_last. repeat split; reflexivity.
  - rewrite loop_body_killed by (try assumption; rewrite Hr; discriminate).
    rewrite Hr. read_trace. unfold epilogue.
    change [CommitTransactionCommand; pgstat_report_activity STATE_IDLE None]
      with ([CommitTransactionCommand]
            ++ [pgstat_report_activity STATE_IDLE None]).
    rewrite !app_assoc, last_last.
    cbn [count filter is_warning is_idle_session_line List.length app].
    repeat split; try reflexivity; cbn; lia.
Qed.

Lemma C7_witness :
  count is_warning
    (trace (loop_body (build_select 60) (build_kill 60)
                      wake_null_pid boot_globals)) = 2%nat /\
  count is_idle_session_line
    (trace (loop_body (build_select 60) (build_kill 60)
                      wake_null_pid boot_globals)) = 1%nat /\
  outcome (loop_body (build_select 60) (build_kill 60)
                     wake_null_pid boot_globals)
  = Ret tt boot_globals.
Proof.
  destruct (C7_null_pid_row_warned_and_skipped
              (build_select 60) (build_kill 60) wake_null_pid boot_globals
              eq_refl eq_refl eq_refl) as (_ & Hw & Hi & Ho & _).
  split; [exact Hw|]. split; [exact Hi|exact Ho].
Defined.

(** ** When the terminate statement runs *)

(** C8: in an iteration whose select statement succeeds, the terminate
    statement is executed exactly when the select returned at least one
    row; with zero rows the select is the only statement executed, no
    termination line is written, and the iteration ends normally. *)
Theorem C8_terminate_only_when_rows
  bs bk (w : wake) (g : globals) :
  postmaster_death w = false ->
  fst (select_result w bs) = SPI_OK_SELECT ->
  executed_queries (trace (loop_body bs bk w g))
  = bs :: match snd (select_result w bs) with
          | [] => []
          | _ :: _ => [bk]
          end /\
  (snd (select_result w bs) = [] ->
   count is_terminated_line (trace (loop_body bs bk w g)) = 0%nat /\
   loop_body bs bk w g
   = (prologue bs w g ++ epilogue,
      Ret tt (deliver_signals (signals_in_body w) (after_reload w g)))).
Proof.
  intros Hd Hs.
  destruct (snd (select_result w bs)) as [|t rows] eqn:Hr.
  - rewrite loop_body_no_rows by assumption. read_trace.
    repeat split; reflexivity.
  - split; [|discriminate].
    assert (Hne : snd (select_result w bs) <> []) by (rewrite Hr; discriminate).
    destruct (Z.eq_dec (kill_result w bk) SPI_OK_SELECT) as [Hk|Hk].
    + rewrite loop_body_killed by assumption. read_trace. reflexivity.
    + rewrite loop_body_kill_failed by assumption. read_trace. reflexivity.
Qed.

Lemma C8_witness :
  executed_queries
    (trace (loop_body (build_select 60) (build_kill 60)
                      wake_no_rows boot_globals)) = [build_select 60] /\
  count is_terminated_line
    (trace (loop_body (build_select 60) (build_kill 60)
                      wake_no_rows boot_globals)) = 0%nat /\
  executed_queries
    (trace (loop_body (build_select 60) (build_kill 60)
                      wake_timer boot_globals))
  = [build_select 60; build_kill 60].
Proof.
  destruct (C8_terminate_only_when_rows
              (build_select 60) (build_kill 60) wake_no_rows boot_globals
              eq_refl eq_refl) as [Hq Hz].
  destruct (Hz eq_refl) as [Hc _].
  destruct (C8_terminate_only_when_rows
              (build_select 60) (build_kill 60) wake_timer boot_globals
              eq_refl eq_refl) as [Hq' _].
  split; [exact Hq|]. split; [exact Hc|exact Hq'].
Defined.

(** ** The connection *)


(** * Further properties of the worker *)

(** ** Signals and the shape of an iteration *)

Lemma deliver_signals_flags (sigs : list signal) (g : globals) :
  got_sighup (deliver_signals sigs g)
  = (got_sighup g || existsb is_SIGHUP sigs)%bool /\
  got_sigterm (deliver_signals sigs g)
  = (got_sigterm g || existsb is_SIGTERM sigs)%bool.
Proof.
  unfold deliver_signals. revert g.
  induction sigs as [|s sigs IH]; intros g; cbn [fold_left existsb].
  - now rewrite !orb_false_r.
  - destruct (IH (handle g s)) as [-> ->].
    destruct s; cbn; split;
      rewrite ?orb_true_r, ?orb_false_r, ?orb_true_l, ?orb_false_l;
      reflexivity.
Qed.

Lemma existsb_is_SIGTERM (sigs : list signal) :
  existsb is_SIGTERM sigs = true <-> In SIGTERM sigs.
Proof.
  rewrite existsb_exists. split.
  - intros [s [Hin Hs]]. destruct s; [discriminate|exact Hin].
  - intros Hin. exists SIGTERM. split; [exact Hin|reflexivity].
Qed.


Lemma got_sighup_after_reload (w : wake) (g : globals) :
  got_sighup (after_reload w g) = false.
Proof.
  unfold after_reload.
  destruct (got_sighup (after_wait w g)) eqn:E; [reflexivity|exact E].
Qed.

(** The five ways an iteration can go. *)
Lemma loop_body_cases bs bk (w : wake) (g : globals) :
  (postmaster_death w = true /\
   loop_body bs bk w g
   = ([WaitLatch (pg_timeout_naptime g * 1000); proc_exit 1], Exit 1)) \/
  (postmaster_death w = false /\
   (loop_body bs bk w g
    = (prologue bs w g
       ++ [elog FATAL "cannot select from pg_stat_activity: error code %d"
                [ArgInt (fst (select_result w bs))]],
       Abort) \/
    loop_body bs bk w g
    = (prologue bs w g ++ epilogue,
       Ret tt (deliver_signals (signals_in_body w) (after_reload w g))) \/
    loop_body bs bk w g
    = (prologue bs w g
       ++ row_lines (snd (select_result w bs)) g
       ++ [SPI_execute bk;
           elog FATAL "cannot select pg_terminate_backend: error code %d"
                [ArgInt (kill_result w bk)]],
       Abort) \/
    loop_body bs bk w g
    = (prologue bs w g
       ++ row_lines (snd (select_result w bs)) g
       ++ [SPI_execute bk;
           elog LOG "%s: idle session(s) since %d seconds terminated"
                [ArgStr (Some bgw_name);
                 ArgInt (pg_timeout_idle_session_timeout (after_reload w g))]]
       ++ epilogue,
       Ret tt (deliver_signals (signals_in_body w) (after_reload w g))))).
Proof.
  destruct (postmaster_death w) eqn:Hd.
  { left. split; [reflexivity|]. apply loop_body_postmaster_death. exact Hd. }
  right. split; [reflexivity|].
  destruct (Z.eq_dec (fst (select_result w bs)) SPI_OK_SELECT) as [Hs|Hs].
  2:{ left. apply loop_body_select_failed; assumption. }
  destruct (snd (select_result w bs)) as [|t rows] eqn:Hr.
  { right; left. apply loop_body_no_rows; assumption. }
  assert (Hne : snd (select_result w bs) <> []) by (rewrite Hr; discriminate).
  rewrite <- Hr.
  destruct (Z.eq_dec (kill_result w bk) SPI_OK_SELECT) as [Hk|Hk].
  - do 3 right. apply loop_body_killed; assumption.
  - right; right; left. apply loop_body_kill_failed; assumption.
Qed.

Ltac by_cases bs bk w g :=
  let E := fresh "E" in
  let Hd := fresh "Hd" in
  destruct (loop_body_cases bs bk w g) as [[Hd E]|[Hd [E|[E|[E|E]]]]];
  rewrite E.

Lemma loop_body_one_wait bs bk (w : wake) (g : globals) :
  count is_WaitLatch (trace (loop_body bs bk w g)) = 1%nat.
Proof. by_cases bs bk w g; read_trace; reflexivity. Qed.

Lemma loop_body_ret bs bk (w : wake) (g g' : globals) :
  outcome (loop_body bs bk w g) = Ret tt g' ->
  postmaster_death w = false /\
  g' = deliver_signals (signals_in_body w) (after_reload w g).
Proof.
  by_cases bs bk w g; cbn [outcome snd]; intros H; try discriminate H;
    injection H as <-; split; auto.
Qed.

Lemma loop_body_not_ret_exit_1 bs bk (w : wake) (g : globals) :
  (exists g', outcome (loop_body bs bk w g) = Ret tt g') \/
  outcome (loop_body bs bk w g) = Exit 1 \/
  outcome (loop_body bs bk w g) = Abort.
Proof. by_cases bs bk w g; cbn [outcome snd]; eauto. Qed.

Lemma Forall_prologue (P : event -> Prop) bs (w : wake) (g : globals) :
  P (WaitLatch (pg_timeout_naptime g * 1000)) ->
  P ProcessConfigFile ->
  P StartTransactionCommand ->
  P (pgstat_report_activity STATE_RUNNING (Some bs)) ->
  P (SPI_execute bs) ->
  Forall P (prologue bs w g).
Proof.
  intros. unfold prologue. destruct (got_sighup (after_wait w g)); cbn [app];
    repeat (apply Forall_cons; [assumption|]); apply Forall_nil.
Qed.

Lemma Forall_row_lines (P : event -> Prop) (rows : list tuple) (g : globals) :
  (forall lvl fmt args, P (elog lvl fmt args)) ->
  Forall P (row_lines rows g).
Proof.
  intros HP. unfold row_lines. induction rows as [|t rows IH]; [constructor|].
  cbn [flat_map]. apply Forall_app. split; [|exact IH].
  unfold row_body. destruct (t_pid t); cbn [trace fst do_elog];
    (apply Forall_cons; [apply HP|apply Forall_nil]).
Qed.

(** A property of events holds all along an iteration when it holds of
    each call the iteration can make. *)
Lemma Forall_loop_body (P : event -> Prop) bs bk (w : wake) (g : globals) :
  P (WaitLatch (pg_timeout_naptime g * 1000)) ->
  P (proc_exit 1) ->
  P ProcessConfigFile ->
  P StartTransactionCommand ->
  P CommitTransactionCommand ->
  (forall st q, P (pgstat_report_activity st q)) ->
  (forall q, P (SPI_execute q)) ->
  (forall lvl fmt args, P (elog lvl fmt args)) ->
  Forall P (trace (loop_body bs bk w g)).
Proof.
  intros Hw Hx Hc Hs Hm Hr Hq He.
  pose proof (Forall_prologue P bs w g Hw Hc Hs (Hr _ _) (Hq _)) as Hp.
  pose proof (Forall_row_lines P (snd (select_result w bs)) g He) as Hl.
  by_cases bs bk w g; cbn [trace fst]; unfold epilogue;
    repeat match goal with
           | |- Forall _ (prologue _ _ _) => exact Hp
           | |- Forall _ (row_lines _ _) => exact Hl
           | |- Forall _ (_ ++ _) => apply Forall_app; split
           | |- Forall _ [] => apply Forall_nil
           | |- Forall _ (_ :: _) => apply Forall_cons; [auto|]
           end.
Qed.

(** An invariant of the globals and a property of events carried along
    the loop. *)
Lemma main_loop_invariant (P : event -> Prop) (Inv : globals -> Prop) bs bk :
  (forall w g, Inv g -> Forall P (trace (loop_body bs bk w g))) ->
  (forall w g, Inv g ->
     Inv (deliver_signals (signals_in_body w) (after_reload w g))) ->
  P (proc_exit 1) ->
  forall env g, Inv g ->
    Forall P (trace (main_loop bs bk env g)) /\
    (outcome (main_loop bs bk env g) = Exit 1 \/
     outcome (main_loop bs bk env g) = Abort \/
     exists g', outcome (main_loop bs bk env g) = Ret tt g' /\
                Inv g' /\ got_sigterm g' = false).
Proof.
  intros Hbody Hinv Hexit env.
  induction env as [|w env IH]; intros g Hg;
    destruct (got_sigterm g) eqn:Ht;
    try (rewrite main_loop_sigterm by exact Ht; cbn [trace outcome fst snd];
         split; [repeat constructor; exact Hexit|left; reflexivity]).
  - rewrite main_loop_nil by exact Ht. cbn [trace outcome fst snd].
    split; [constructor|]. right; right. eauto.
  - rewrite main_loop_cons by exact Ht.
    pose proof (Hbody w g Hg) as Hb.
    pose proof (loop_body_ret bs bk w g) as Hr.
    pose proof (loop_body_not_ret_exit_1 bs bk w g) as Ho.
    destruct (loop_body bs bk w g) as [tr [[] g'|c|]];
      cbn [trace outcome fst snd] in *.
    + destruct (Hr g' eq_refl) as [_ ->].
      destruct (IH _ (Hinv w g Hg)) as [IH1 IH2].
      split; [apply Forall_app; split; assumption|exact IH2].
    + split; [exact Hb|].
      destruct Ho as [[g' Ho]|[Ho|Ho]]; try discriminate Ho.
      left. exact Ho.
    + split; [exact Hb|]. right; left. reflexivity.
Qed.

(** X1: when [WaitLatch] reports that the postmaster has died, the worker
    calls [proc_exit(1)] straight after the wait: no reload even with a
    SIGHUP pending, no transaction, no statement, and the wake-ups that
    would follow are never reached. *)
Theorem X1_postmaster_death_exits_at_once
  bs bk (w : wake) (env : list wake) (g : globals) :
  got_sigterm g = false ->
  postmaster_death w = true ->
  main_loop bs bk (w :: env) g
  = ([WaitLatch (pg_timeout_naptime g * 1000); proc_exit 1], Exit 1).
Proof.
  intros Ht Hd. rewrite main_loop_cons by exact Ht.
  rewrite loop_body_postmaster_death by exact Hd. reflexivity.
Qed.

Lemma X1_witness :
  main_loop (build_select 60) (build_kill 60)
            [wake_postmaster_death; wake_timer] boot_globals
  = ([WaitLatch 10000; proc_exit 1], Exit 1).
Proof.
  exact (X1_postmaster_death_exits_at_once
           (build_select 60) (build_kill 60) wake_postmaster_death
           [wake_timer] boot_globals eq_refl eq_refl).
Defined.

(** X2: whatever the environment, a run of [pg_timeout_main] ends by
    [proc_exit(1)], is aborted by a FATAL line, or is still in its loop
    with no shutdown request pending; every [proc_exit] it calls has
    status 1, so the worker never exits with status 0. *)
Theorem X2_exit_status_is_always_1
  (early : list signal) (env : list wake) (g : globals) :
  Forall exits_with_1 (trace (pg_timeout_main early env g)) /\
  (outcome (pg_timeout_main early env g) = Exit 1 \/
   outcome (pg_timeout_main early env g) = Abort \/
   exists g', outcome (pg_timeout_main early env g) = Ret tt g' /\
              got_sigterm g' = false).
Proof.
  pose proof (pg_timeout_main_run early env g) as E. cbv zeta in E.
  rewrite E. cbn [trace outcome fst snd].
  destruct (main_loop_invariant exits_with_1 (fun _ => True)
              (build_select (pg_timeout_idle_session_timeout g))
              (build_kill (pg_timeout_idle_session_timeout g)))
    with (env := env) (g := deliver_signals early g) as [HF HO];
    try exact I; try reflexivity.
  - intros w g0 _. apply Forall_loop_body; intros; exact I || reflexivity.
  - split.
    + repeat (apply Forall_cons; [exact I|]). exact HF.
    + destruct HO as [HO|[HO|[g' [HO [_ Hg']]]]]; eauto.
Qed.

(** X3: a SIGTERM handled before the loop condition is first evaluated
    makes the worker connect, write its first line and leave by
    [proc_exit(1)] without ever waiting, starting a transaction or
    executing a statement. *)
Theorem X3_shutdown_before_the_loop
  (early : list signal) (env : list wake) (g : globals) :
  got_sigterm g = true \/ In SIGTERM early ->
  pg_timeout_main early env g
  = ([BackgroundWorkerInitializeConnection (Some "postgres") None;
      elog LOG "%s initialized" [ArgStr (Some bgw_name)];
      proc_exit 1],
     Exit 1).
Proof.
  intros H. apply deliver_signals_sigterm in H.
  pose proof (pg_timeout_main_run early env g) as E. cbv zeta in E.
  rewrite E, main_loop_sigterm by exact H. reflexivity.
Qed.

Lemma X3_witness :
  pg_timeout_main [SIGHUP; SIGTERM] [wake_timer; wake_timer] boot_globals
  = ([BackgroundWorkerInitializeConnection (Some "postgres") None;
      elog LOG "%s initialized" [ArgStr (Some bgw_name)];
      proc_exit 1],
     Exit 1).
Proof.
  exact (X3_shutdown_before_the_loop [SIGHUP; SIGTERM] [wake_timer; wake_timer]
           boot_globals (or_intror (or_intror (or_introl eq_refl)))).
Defined.

(** ** Shutdown within one iteration, and running on *)

Lemma got_sigterm_after_iteration (w : wake) (g : globals) :
  got_sigterm (deliver_signals (signals_in_body w) (after_reload w g))
  = (got_sigterm g
     || existsb is_SIGTERM (signals_in_wait w)
     || existsb is_SIGTERM (signals_in_body w))%bool.
Proof.
  destruct (deliver_signals_flags (signals_in_body w) (after_reload w g))
    as [_ ->].
  rewrite after_reload_sigterm. unfold after_wait.
  destruct (deliver_signals_flags (signals_in_wait w) g) as [_ ->].
  reflexivity.
Qed.

(** X4: a SIGTERM handled during wake-up number [k] (counted from 0),
    while waiting or while the iteration runs, ends the run: the worker
    waits at most [k + 1] times in all and the run ends by
    [proc_exit(1)] or by a FATAL abort; it is never left in its loop. *)
Theorem X4_shutdown_within_one_iteration
  bs bk (env : list wake) (g : globals) (k : nat) (w : wake) :
  nth_error env k = Some w ->
  In SIGTERM (signals_in_wait w ++ signals_in_body w) ->
  (count is_WaitLatch (trace (main_loop bs bk env g)) <= S k)%nat /\
  (outcome (main_loop bs bk env g) = Exit 1 \/
   outcome (main_loop bs bk env g) = Abort).
Proof.
  intros Hk Hin. revert k g Hk.
  induction env as [|w0 env IH]; intros k g Hk.
  { destruct k; discriminate Hk. }
  destruct (got_sigterm g) eqn:Ht.
  { rewrite main_loop_sigterm by exact Ht. cbn. split; [lia|auto]. }
  rewrite main_loop_cons by exact Ht.
  pose proof (loop_body_one_wait bs bk w0 g) as Hw.
  pose proof (loop_body_ret bs bk w0 g) as Hr.
  pose proof (loop_body_not_ret_exit_1 bs bk w0 g) as Ho.
  destruct (loop_body bs bk w0 g) as [tr [[] g'|c|]];
    cbn [trace outcome fst snd] in *.
  - destruct (Hr g' eq_refl) as [_ ->]. rewrite count_app, Hw.
    destruct k as [|k]; cbn [nth_error] in Hk.
    + injection Hk as ->.
      rewrite main_loop_sigterm.
      * cbn. split; [lia|auto].
      * rewrite got_sigterm_after_iteration, Ht. cbn [orb].
        apply in_app_or in Hin. apply orb_true_iff.
        destruct Hin as [Hin|Hin]; [left|right];
          apply existsb_is_SIGTERM; exact Hin.
    + destruct (IH k (deliver_signals (signals_in_body w0) (after_reload w0 g)) Hk)
        as [IH1 IH2].
      split; [lia|exact IH2].
  - split; [lia|]. destruct Ho as [[g' Ho]|[Ho|Ho]]; try discriminate Ho. auto.
  - split; [lia|auto].
Qed.

Lemma X4_witness :
  (count is_WaitLatch
     (trace (main_loop (build_select 60) (build_kill 60)
                       [wake_timer; wake_sigterm_in_body; wake_timer]
                       boot_globals)) <= 2)%nat /\
  outcome (main_loop (build_select 60) (build_kill 60)
                     [wake_timer; wake_sigterm_in_body; wake_timer]
                     boot_globals) = Exit 1.
Proof.
  destruct (X4_shutdown_within_one_iteration
              (build_select 60) (build_kill 60)
              [wake_timer; wake_sigterm_in_body; wake_timer] boot_globals
              1%nat wake_sigterm_in_body eq_refl (or_introl eq_refl))
    as [Hc Ho].
  split; [exact Hc|]. destruct Ho as [Ho|Ho]; [exact Ho|discriminate Ho].
Defined.

Lemma count_prologue_config_iff bs (w : wake) (g : globals) :
  count is_ProcessConfigFile (prologue bs w g)
  = if got_sighup (after_wait w g) then 1%nat else 0%nat.
Proof.
  unfold prologue. destruct (got_sighup (after_wait w g)); reflexivity.
Qed.

Lemma count_prologue_commit bs (w : wake) (g : globals) :
  count is_CommitTransactionCommand (prologue bs w g) = 0%nat.
Proof. count_prologue. Qed.

Lemma count_row_lines_commit (g : globals) :
  forall rows, count is_CommitTransactionCommand (row_lines rows g) = 0%nat.
Proof. count_rows. Qed.

Lemma count_row_lines_config (g : globals) :
  forall rows, count is_ProcessConfigFile (row_lines rows g) = 0%nat.
Proof. count_rows. Qed.

Ltac read_more :=
  read_trace;
  rewrite ?count_prologue_commit, ?count_row_lines_commit,
    ?count_prologue_config_iff, ?count_row_lines_config.

Lemma calm_iteration bs bk (w : wake) (g : globals) :
  calm bs bk w = true ->
  got_sigterm g = false ->
  exists tr,
    loop_body bs bk w g
    = (tr, Ret tt (deliver_signals (signals_in_body w) (after_reload w g))) /\
    got_sigterm (deliver_signals (signals_in_body w) (after_reload w g)) = false /\
    count is_WaitLatch tr = 1%nat /\
    count is_StartTransactionCommand tr = 1%nat /\
    count is_CommitTransactionCommand tr = 1%nat.
Proof.
  unfold calm. intros Hc Ht.
  repeat (apply andb_prop in Hc; destruct Hc as [Hc ?]).
  apply negb_true_iff in Hc.
  repeat match goal with
         | H : negb _ = true |- _ => apply negb_true_iff in H
         end.
  assert (Hs : fst (select_result w bs) = SPI_OK_SELECT) by (now apply Z.eqb_eq).
  assert (Hafter :
    got_sigterm (deliver_signals (signals_in_body w) (after_reload w g)) = false).
  { rewrite got_sigterm_after_iteration, Ht.
    repeat match goal with
           | H : existsb _ _ = false |- _ => rewrite H
           end. reflexivity. }
  destruct (snd (select_result w bs)) as [|t rows] eqn:Hr.
  - eexists. split; [apply loop_body_no_rows; assumption|].
    split; [exact Hafter|]. read_more. repeat split; reflexivity.
  - assert (Hk : kill_result w bk = SPI_OK_SELECT) by (now apply Z.eqb_eq).
    eexists. split.
    { apply loop_body_killed; try assumption. rewrite Hr. discriminate. }
    split; [exact Hafter|]. read_more. repeat split; reflexivity.
Qed.

(** X5: as long as the postmaster lives, no SIGTERM is handled and the
    statements succeed, the worker stays in its loop: after [n] wake-ups
    it has waited [n] times and started and committed exactly [n]
    transactions, and no shutdown request is pending. *)
Theorem X5_worker_keeps_running
  bs bk (env : list wake) (g : globals) :
  got_sigterm g = false ->
  forallb (calm bs bk) env = true ->
  exists g',
    outcome (main_loop bs bk env g) = Ret tt g' /\
    got_sigterm g' = false /\
    count is_WaitLatch (trace (main_loop bs bk env g)) = List.length env /\
    count is_StartTransactionCommand (trace (main_loop bs bk env g))
    = List.length env /\
    count is_CommitTransactionCommand (trace (main_loop bs bk env g))
    = List.length env.
Proof.
  revert g. induction env as [|w env IH]; intros g Ht Hc.
  - rewrite main_loop_nil by exact Ht. exists g. repeat split; assumption.
  - cbn [forallb] in Hc. apply andb_prop in Hc. destruct Hc as [Hw Hc].
    destruct (calm_iteration bs bk w g Hw Ht)
      as (tr & E & Hafter & C1 & C2 & C3).
    rewrite main_loop_cons, E by exact Ht.
    destruct (IH _ Hafter Hc) as (g' & Ho & Hg' & D1 & D2 & D3).
    exists g'. cbn [trace outcome fst snd List.length] in *.
    rewrite !count_app, C1, C2, C3, D1, D2, D3.
    repeat split; assumption || reflexivity.
Qed.

Lemma X5_witness :
  exists g',
    outcome (main_loop (build_select 60) (build_kill 60)
                       [wake_timer; wake_no_rows; wake_then_sighup]
                       boot_globals) = Ret tt g' /\
    count is_CommitTransactionCommand
      (trace (main_loop (build_select 60) (build_kill 60)
                        [wake_timer; wake_no_rows; wake_then_sighup]
                        boot_globals)) = 3%nat.
Proof.
  destruct (X5_worker_keeps_running
              (build_select 60) (build_kill 60)
              [wake_timer; wake_no_rows; wake_then_sighup] boot_globals
              eq_refl eq_refl) as (g' & Ho & _ & _ & _ & Hc).
  exists g'. split; [exact Ho|exact Hc].
Defined.

(** ** Transactions *)

Lemma tx_run_app (open : bool) (a b : list event) :
  tx_run open (a ++ b)
  = match tx_run open a with
    | Some open' => tx_run open' b
    | None => None
    end.
Proof.
  revert open. induction a as [|e a IH]; intros open; [reflexivity|].
  cbn [app tx_run]. destruct (tx_step open e); [apply IH|reflexivity].
Qed.

Lemma tx_run_prologue bs (w : wake) (g : globals) :
  tx_run false (prologue bs w g) = Some true.
Proof.
  unfold prologue. destruct (got_sighup (after_wait w g)); reflexivity.
Qed.

Lemma tx_run_row_lines (rows : list tuple) (g : globals) :
  tx_run true (row_lines rows g) = Some true.
Proof.
  unfold row_lines. induction rows as [|t rows IH]; [reflexivity|].
  cbn [flat_map]. rewrite tx_run_app.
  unfold row_body at 1. destruct (t_pid t); cbn; exact IH.
Qed.

Lemma tx_run_loop_body bs bk (w : wake) (g : globals) :
  exists open,
    tx_run false (trace (loop_body bs bk w g)) = Some open /\
    (open = true <-> outcome (loop_body bs bk w g) = Abort).
Proof.
  by_cases bs bk w g; cbn [trace outcome fst snd];
    rewrite ?tx_run_app, ?tx_run_prologue, ?tx_run_row_lines;
    cbn [tx_run tx_step epilogue app];
    rewrite ?tx_run_app, ?tx_run_row_lines; cbn [tx_run tx_step];
    eexists; (split; [reflexivity|]); split; intros H;
    reflexivity || discriminate H.
Qed.

Lemma tx_run_main_loop bs bk (env : list wake) (g : globals) :
  exists open,
    tx_run false (trace (main_loop bs bk env g)) = Some open /\
    (open = true <-> outcome (main_loop bs bk env g) = Abort).
Proof.
  revert g. induction env as [|w env IH]; intros g;
    destruct (got_sigterm g) eqn:Ht;
    try (rewrite main_loop_sigterm by exact Ht; exists false;
         split; [reflexivity|split; discriminate]).
  - rewrite main_loop_nil by exact Ht. exists false.
    split; [reflexivity|split; discriminate].
  - rewrite main_loop_cons by exact Ht.
    destruct (tx_run_loop_body bs bk w g) as (open & Hrun & Hopen).
    destruct (loop_body bs bk w g) as [tr [[] g'|c|]];
      cbn [trace outcome fst snd] in *.
    + destruct open.
      * destruct Hopen as [Hopen _]. discriminate (Hopen eq_refl).
      * rewrite tx_run_app, Hrun. apply IH.
    + exists open. split; [exact Hrun|]. exact Hopen.
    + exists open. split; [exact Hrun|]. exact Hopen.
Qed.

(** X6: in every run the calls follow the transaction discipline: a
    transaction is started only when none is open and committed only when
    one is open, statements are executed only inside a transaction, and
    the worker never waits or reloads its configuration with a
    transaction open.  A transaction is left open at the end of the trace
    exactly when the run was aborted by a FATAL line. *)
Theorem X6_transaction_discipline
  (early : list signal) (env : list wake) (g : globals) :
  exists open,
    tx_run false (trace (pg_timeout_main early env g)) = Some open /\
    (open = true <-> outcome (pg_timeout_main early env g) = Abort).
Proof.
  pose proof (pg_timeout_main_run early env g) as E. cbv zeta in E.
  rewrite E. cbn [trace outcome fst snd tx_run tx_step].
  apply tx_run_main_loop.
Qed.

(** ** Reload *)

(** X7: in an iteration that gets past the postmaster test,
    [ProcessConfigFile] is called once when a SIGHUP is pending or was
    handled during the wait, however many SIGHUPs there were, and not at
    all otherwise; and when the iteration completes, [got_sighup] is set
    only if a SIGHUP was handled after the test. *)
Theorem X7_one_reload_per_wake_up
  bs bk (w : wake) (g : globals) :
  postmaster_death w = false ->
  count is_ProcessConfigFile (trace (loop_body bs bk w g))
  = (if (got_sighup g || existsb is_SIGHUP (signals_in_wait w))%bool
     then 1%nat else 0%nat) /\
  (forall g', outcome (loop_body bs bk w g) = Ret tt g' ->
     got_sighup g' = existsb is_SIGHUP (signals_in_body w)).
Proof.
  intros Hd. split.
  - destruct (deliver_signals_flags (signals_in_wait w) g) as [Hf _].
    fold (after_wait w g) in Hf. rewrite <- Hf.
    by_cases bs bk w g.
    + congruence.
    + read_more. destruct (got_sighup (after_wait w g)); reflexivity.
    + read_more. destruct (got_sighup (after_wait w g)); reflexivity.
    + read_more. destruct (got_sighup (after_wait w g)); reflexivity.
    + read_more. destruct (got_sighup (after_wait w g)); reflexivity.
  - intros g' Ho. apply loop_body_ret in Ho. destruct Ho as [_ ->].
    destruct (deliver_signals_flags (signals_in_body w) (after_reload w g))
      as [-> _].
    rewrite got_sighup_after_reload. reflexivity.
Qed.

Lemma X7_witness :
  count is_ProcessConfigFile
    (trace (loop_body (build_select 60) (build_kill 60)
                      wake_reload_naptime boot_globals)) = 1%nat /\
  count is_ProcessConfigFile
    (trace (loop_body (build_select 60) (build_kill 60)
                      wake_timer boot_globals)) = 0%nat.
Proof.
  split.
  - exact (proj1 (X7_one_reload_per_wake_up
                    (build_select 60) (build_kill 60) wake_reload_naptime
                    boot_globals eq_refl)).
  - exact (proj1 (X7_one_reload_per_wake_up
                    (build_select 60) (build_kill 60) wake_timer
                    boot_globals eq_refl)).
Defined.

Lemma settings_after_reload (w : wake) (g : globals) :
  pg_timeout_idle_session_timeout (after_reload w g)
  = (if (got_sighup g || existsb is_SIGHUP (signals_in_wait w))%bool
     then guc_assign (pg_timeout_idle_session_timeout g)
                     (conf_idle_session_timeout (conf_file w))
     else pg_timeout_idle_session_timeout g) /\
  pg_timeout_naptime (after_reload w g)
  = (if (got_sighup g || existsb is_SIGHUP (signals_in_wait w))%bool
     then guc_assign (pg_timeout_naptime g) (conf_naptime (conf_file w))
     else pg_timeout_naptime g).
Proof.
  unfold after_reload, after_wait.
  destruct (deliver_signals_flags (signals_in_wait w) g) as [-> _].
  destruct (deliver_signals_settings (signals_in_wait w) g) as [Et En].
  destruct (got_sighup g || existsb is_SIGHUP (signals_in_wait w))%bool;
    cbn; rewrite ?Et, ?En; split; reflexivity.
Qed.




(** ** Bounds *)

Lemma guc_assign_in_bounds (cur new : Z) :
  1 <= cur <= INT_MAX -> 1 <= guc_assign cur new <= INT_MAX.
Proof.
  intros H. unfold guc_assign.
  destruct ((1 <=? new) && (new <=? INT_MAX))%bool eqn:E; [|exact H].
  apply andb_prop in E. destruct E as [E1 E2].
  apply Z.leb_le in E1. apply Z.leb_le in E2. lia.
Qed.

Lemma settings_in_bounds_after_iteration (w : wake) (g : globals) :
  settings_in_bounds g ->
  settings_in_bounds (deliver_signals (signals_in_body w) (after_reload w g)).
Proof.
  unfold settings_in_bounds. intros [Ht Hn].
  destruct (deliver_signals_settings (signals_in_body w) (after_reload w g))
    as [-> ->].
  destruct (settings_after_reload w g) as [-> ->].
  destruct (got_sighup g || existsb is_SIGHUP (signals_in_wait w))%bool;
    split; auto using guc_assign_in_bounds.
Qed.

Lemma wrap_long_64_exact (naptime : Z) :
  1 <= naptime <= INT_MAX ->
  wrap_long 64 (naptime * 1000) = naptime * 1000.
Proof.
  intros H. unfold wrap_long, INT_MAX in *.
  change (2 ^ (64 - 1)) with 9223372036854775808.
  change (2 ^ 64) with 18446744073709551616.
  rewrite Z.mod_small by lia. lia.
Qed.

Lemma wait_of_naptime_main_loop bs bk (env : list wake) (g : globals) :
  settings_in_bounds g ->
  Forall wait_of_naptime (trace (main_loop bs bk env g)) /\
  (outcome (main_loop bs bk env g) = Exit 1 \/
   outcome (main_loop bs bk env g) = Abort \/
   exists g', outcome (main_loop bs bk env g) = Ret tt g' /\
              settings_in_bounds g' /\ got_sigterm g' = false).
Proof.
  apply (main_loop_invariant wait_of_naptime settings_in_bounds).
  - intros w g0 [_ Hn]. apply Forall_loop_body; intros; try exact I.
    exists (pg_timeout_naptime g0).
    split; [exact Hn|]. split; [reflexivity|].
    apply wrap_long_64_exact. exact Hn.
  - intros w g0. apply settings_in_bounds_after_iteration.
  - exact I.
Qed.

(** X9: when the worker starts with both settings in [1, INT_MAX], they
    are in these bounds in whatever state a run leaves the worker, and
    every wait of the run asks for naptime * 1000 with a naptime in
    [1, INT_MAX].  Held in a [long] of 64 bits that product is the same
    number, so the timeout is at least 1000 milliseconds.  Held in a
    [long] of 32 bits it is not: started with the naptime 2147484, which
    is within the bounds, the worker asks for a product that wraps to a
    negative number. *)
Theorem X9_settings_stay_in_bounds
  (early : list signal) (env : list wake) (g : globals) :
  settings_in_bounds g ->
  Forall wait_of_naptime (trace (pg_timeout_main early env g)) /\
  (forall g', outcome (pg_timeout_main early env g) = Ret tt g' ->
     settings_in_bounds g') /\
  (settings_in_bounds (mkGlobals false false 60 2147484) /\
   exists ms,
     hd_error (trace (main_loop (build_select 60) (build_kill 60) [wake_timer]
                                (mkGlobals false false 60 2147484)))
     = Some (WaitLatch ms) /\
     wrap_long 32 ms < 0).
Proof.
  intros Hg.
  pose proof (pg_timeout_main_run early env g) as E. cbv zeta in E.
  rewrite E. cbn [trace outcome fst snd].
  assert (Hg0 : settings_in_bounds (deliver_signals early g)).
  { unfold settings_in_bounds.
    destruct (deliver_signals_settings early g) as [-> ->]. exact Hg. }
  destruct (wait_of_naptime_main_loop
              (build_select (pg_timeout_idle_session_timeout g))
              (build_kill (pg_timeout_idle_session_timeout g))
              env _ Hg0) as [HF HO].
  split; [repeat (apply Forall_cons; [exact I|]); exact HF|].
  split.
  - intros g' Hg'. rewrite Hg' in HO.
    destruct HO as [HO|[HO|[g'' [HO [Hb _]]]]]; try discriminate HO.
    injection HO as <-. exact Hb.
  - split.
    + unfold settings_in_bounds, INT_MAX. cbn. lia.
    + eexists. split; [vm_compute; reflexivity|]. vm_compute. reflexivity.
Qed.

Lemma X9_witness :
  Forall wait_of_naptime
    (trace (pg_timeout_main [] [wake_reload_naptime; wake_timer] boot_globals)) /\
  settings_in_bounds (mkGlobals false false 60 30).
Proof.
  assert (Hb : settings_in_bounds boot_globals)
    by (unfold settings_in_bounds, boot_globals, INT_MAX; cbn; lia).
  destruct (X9_settings_stay_in_bounds
              [] [wake_reload_naptime; wake_timer] boot_globals Hb)
    as (HF & HO & _).
  split; [exact HF|]. apply HO. reflexivity.
Defined.

(** ** The text of the statements *)

(** X10: the statement text determines the timeout: two different values
    of [pg_timeout_idle_session_timeout] give two different select
    statements and two different terminate statements.  And a select
    statement is never equal to a terminate statement, for the same
    timeout or for two different ones. *)
Theorem X10_statements_differ_with_the_timeout (t t' : Z) :
  (t <> t' ->
   build_select t <> build_select t' /\
   build_kill t <> build_kill t') /\
  build_select t <> build_kill t /\
  build_select t <> build_kill t'.
Proof.
  assert (Hs : forall n, build_select n
    = ("SELECT pid, usename, datname, application_name, client_hostname "
       ++ ("FROM pg_stat_activity WHERE pid <> pg_backend_pid() "
       ++ ("AND state = 'idle' AND state_change < current_timestamp - INTERVAL '"
       ++ (fmt_d n ++ "' SECOND"))))%string) by reflexivity.
  assert (Hk : forall n, build_kill n
    = ("SELECT pg_terminate_backend(pid) "
       ++ ("FROM pg_stat_activity WHERE pid <> pg_backend_pid() "
       ++ ("AND state = 'idle' AND state_change < current_timestamp - INTERVAL '"
       ++ (fmt_d n ++ "' SECOND"))))%string) by reflexivity.
  split; [intros Hne; split|split]; intros H.
  - rewrite !Hs in H. do 3 apply append_inv_head in H.
    apply append_inv_tail, fmt_d_inj in H. exact (Hne H).
  - rewrite !Hk in H. do 3 apply append_inv_head in H.
    apply append_inv_tail, fmt_d_inj in H. exact (Hne H).
  - rewrite Hs, Hk in H. cbn in H. discriminate H.
  - rewrite Hs, Hk in H. cbn in H. discriminate H.
Qed.

Lemma X10_witness :
  build_select 60 <> build_select 5 /\
  build_kill 60 <> build_kill 5 /\
  build_select 60 <> build_kill 60.
Proof.
  destruct (X10_statements_differ_with_the_timeout 60 5) as (H & Hsame & _).
  assert (Hne : 60 <> 5) by discriminate.
  destruct (H Hne) as [H1 H2].
  split; [exact H1|]. split; [exact H2|exact Hsame].
Defined.

(** ** The signal handlers *)

(** X11: handling any sequence of signals only sets flags: [got_sighup]
    is set when a SIGHUP is among them, [got_sigterm] when a SIGTERM is,
    a flag already set stays set, and the two settings are left alone.
    So repeated signals coalesce and their order does not matter. *)
Theorem X11_handlers_only_set_flags (sigs : list signal) (g : globals) :
  deliver_signals sigs g
  = mkGlobals (got_sighup g || existsb is_SIGHUP sigs)
              (got_sigterm g || existsb is_SIGTERM sigs)
              (pg_timeout_idle_session_timeout g)
              (pg_timeout_naptime g).
Proof.
  destruct (deliver_signals_flags sigs g) as [H1 H2].
  destruct (deliver_signals_settings sigs g) as [H3 H4].
  destruct (deliver_signals sigs g) as [a b c d]. cbn in *.
  now subst.
Qed.

(** ** The lines written for the rows *)

(** X12: for a row whose pid is not null exactly one LOG line is written
    and control goes on.  The line carries the pid; the user and the
    database as they are, or "NULL" when null; the application name as
    it is, null included; and as host name the row's host name when both
    the application name and the host name are present, "NULL"
    otherwise.  User, database and host name are never passed as NULL
    pointers. *)
Theorem X12_line_of_a_row (t : tuple) (g : globals) (pid : Z) :
  t_pid t = Some pid ->
  row_body t g
  = ([elog LOG LOG_MESSAGE
        [ArgStr (Some bgw_name);
         ArgInt pid;
         ArgStr (Some (match t_usename t with
                       | Some s => s
                       | None => "NULL"
                       end));
         ArgStr (Some (match t_datname t with
                       | Some s => s
                       | None => "NULL"
                       end));
         ArgStr (t_application_name t);
         ArgStr (Some (match t_application_name t, t_client_hostname t with
                       | Some _, Some s => s
                       | _, _ => "NULL"
                       end))]],
     Ret tt g).
Proof.
  intros Hp. unfold row_body. rewrite Hp.
  destruct (t_usename t), (t_datname t), (t_application_name t),
    (t_client_hostname t); reflexivity.
Qed.

Lemma X12_witness :
  row_body alice boot_globals
  = ([elog LOG LOG_MESSAGE
        [ArgStr (Some bgw_name); ArgInt 4242; ArgStr (Some "alice");
         ArgStr (Some "app"); ArgStr (Some "psql"); ArgStr (Some "NULL")]],
     Ret tt boot_globals).
Proof.
  exact (X12_line_of_a_row alice boot_globals 4242 eq_refl).
Defined.

(** ** Registration *)

Lemma defined_value_in_bounds (bootValue : Z) (configured : option Z) :
  1 <= bootValue <= INT_MAX ->
  1 <= PgInit.defined_value bootValue configured <= INT_MAX.
Proof.
  intros H. destruct configured as [v|]; cbn; [|exact H].
  apply guc_assign_in_bounds. exact H.
Qed.

Lemma PG_init_preload_settings (cn ct : option Z) (g : globals) :
  settings_in_bounds (snd (PgInit._PG_init true cn ct g)).
Proof.
  unfold settings_in_bounds. cbn.
  split; apply defined_value_in_bounds; unfold INT_MAX; lia.
Qed.

(** X13: [_PG_init] outside of preload defines the naptime only: no
    worker is registered and the timeout variable is left as it was.
    Under preload exactly one worker is registered, under the name the
    worker writes in its lines, with [pg_timeout_main] of library
    [pg_timeout] as entry point and the naptime just defined as restart
    interval; and both settings are then in [1, INT_MAX], whatever the
    configuration holds for them. *)
Theorem X13_PG_init_registers_one_worker
  (cn ct : option Z) (g : globals) :
  (PgInit.registered (fst (PgInit._PG_init false cn ct g)) = [] /\
   pg_timeout_idle_session_timeout (snd (PgInit._PG_init false cn ct g))
   = pg_timeout_idle_session_timeout g /\
   1 <= pg_timeout_naptime (snd (PgInit._PG_init false cn ct g)) <= INT_MAX) /\
  (exists wk,
     PgInit.registered (fst (PgInit._PG_init true cn ct g)) = [wk] /\
     PgInit.bgw_name wk = bgw_name /\
     PgInit.bgw_library_name wk = "pg_timeout" /\
     PgInit.bgw_function_name wk = "pg_timeout_main" /\
     PgInit.bgw_restart_time wk
     = pg_timeout_naptime (snd (PgInit._PG_init true cn ct g))) /\
  settings_in_bounds (snd (PgInit._PG_init true cn ct g)).
Proof.
  split; [|split].
  - cbn. repeat split; try reflexivity;
      apply defined_value_in_bounds; unfold INT_MAX; lia.
  - eexists. cbn. repeat split; reflexivity.
  - apply PG_init_preload_settings.
Qed.

(** X14: a worker started on the globals [_PG_init] leaves under preload
    only ever executes statements built from one timeout: the boot value
    60, or the value the configuration held for the name when that value
    is within [1, INT_MAX].  This timeout lies in [1, INT_MAX]; it is
    never the 0 the variable holds before [_PG_init]. *)
Theorem X14_worker_after_PG_init
  (cn ct : option Z) (early : list signal) (env : list wake) :
  exists timeout,
    timeout = match ct with
              | Some v => if ((1 <=? v) && (v <=? INT_MAX))%bool then v else 60
              | None => 60
              end /\
    1 <= timeout <= INT_MAX /\
    Forall (fun q => q = build_select timeout \/ q = build_kill timeout)
      (executed_queries
         (trace (pg_timeout_main early env
                   (snd (PgInit._PG_init true cn ct PgInit.static_globals))))).
Proof.
  pose proof (PG_init_preload_settings cn ct PgInit.static_globals) as Hb.
  set (g0 := snd (PgInit._PG_init true cn ct PgInit.static_globals)) in *.
  exists (pg_timeout_idle_session_timeout g0).
  split; [destruct ct; reflexivity|].
  split; [exact (proj1 Hb)|].
  pose proof (pg_timeout_main_run early env g0) as E. cbv zeta in E.
  rewrite E. cbn [trace outcome fst snd executed_queries flat_map app].
  apply executed_queries_allowed, allowed_main_loop.
Qed.

(** ** More on the idle-session predicate *)

(** X15: by the text of the two statements, a row of [pg_stat_activity]
    whose state or state_change is null, as the rows of background
    workers are, is returned by neither statement, whatever the timeout;
    and a row returned by the statements built from a timeout is also
    returned by those built from any smaller timeout. *)
Theorem X15_null_state_and_smaller_timeout
  (b : backend) (t t' : Z) (s : session) :
  (s_state s = None \/ s_state_change s = None ->
   selects b (build_select t) s = Some false /\
   selects b (build_kill t) s = Some false) /\
  (t' <= t ->
   selects b (build_select t) s = Some true ->
   selects b (build_select t') s = Some true /\
   selects b (build_kill t') s = Some true).
Proof.
  rewrite (selects_build_select b t s), (selects_build_kill b t s),
    (selects_build_select b t' s), (selects_build_kill b t' s).
  split.
  - intros H.
    assert (selected b (idle_window t) s = false) as ->; [|tauto].
    destruct (selected b (idle_window t) s) eqn:E; [|reflexivity].
    apply selected_idle_window in E.
    destruct E as (_ & Hs & ts & Hc & _).
    destruct H as [H|H]; congruence.
  - intros Hle H. injection H as H. apply selected_idle_window in H.
    assert (selected b (idle_window t') s = true) as ->; [|tauto].
    apply selected_idle_window.
    destruct H as (Hp & Hs & ts & Hc & Hlt).
    split; [exact Hp|]. split; [exact Hs|].
    exists ts. split; [exact Hc|lia].
Qed.

Lemma X15_witness :
  selects worker_backend (build_select 60) background_worker_row = Some false /\
  selects worker_backend (build_kill 5) idle_since_100_us = Some true.
Proof.
  split.
  - destruct (X15_null_state_and_smaller_timeout
                worker_backend 60 5 background_worker_row) as [H _].
    exact (proj1 (H (or_introl eq_refl))).
  - destruct (X15_null_state_and_smaller_timeout
                worker_backend 60 5 idle_since_100_us) as [_ H].
    assert (Hle : 5 <= 60) by lia.
    assert (Hsel : selects worker_backend (build_select 60) idle_since_100_us
                   = Some true) by (vm_compute; reflexivity).
    exact (proj2 (H Hle Hsel)).
Defined.
